(** * mcp4meme: the Bitquery client and the four Four.meme tools

    A shallow embedding of [src/mcp_server.py].  Python values are an
    inductive type, the built-in operations the module relies on
    ([in], [.get], subscripts, slices, iteration, [==], truthiness) are
    total functions into an outcome type that records the exception a
    Python evaluation would raise, and the HTTP transport is an explicit
    oracle together with a log of the requests that were sent. *)

From Stdlib Require Import String Ascii List ZArith QArith Bool Lia.
From Stdlib Require Import DecimalString.
Import ListNotations.

Local Open Scope string_scope.
Local Open Scope Z_scope.

(** ** Python values *)

(** The values the module handles: what [response.json()] decodes
    (objects, arrays, strings, numbers, booleans, null) and the records
    the tools build.  A dictionary is an insertion-ordered association
    list with string keys; a finite float is carried by its exact value. *)
Unset Elimination Schemes.
Inductive value : Type :=
| VNone
| VBool (b : bool)
| VInt (z : Z)
| VFloat (q : Q)
| VStr (s : string)
| VList (l : list value)
| VDict (d : list (string * value)).
Set Elimination Schemes.

Definition dict : Type := list (string * value).

(** Exceptions: the class and [str(e)].  The messages of the built-in
    operations are worded as CPython 3.11 words them. *)
Inductive exn_class : Type :=
| AttributeError | TypeError | KeyError | IndexError | NameError
| JSONDecodeError | TransportError.

Record exn : Type := mkExn { exn_cls : exn_class; exn_msg : string }.

(** The outcome of evaluating a Python expression or block. *)
Inductive outcome (A : Type) : Type :=
| Ret (a : A)
| Raise (e : exn).
Arguments Ret {A} a.
Arguments Raise {A} e.

Definition bind {A B} (m : outcome A) (k : A -> outcome B) : outcome B :=
  match m with
  | Ret a => k a
  | Raise e => Raise e
  end.
Arguments bind {A B} !m k /.

Notation "x <- m ;; k" := (bind m (fun x => k))
  (at level 61, m at next level, right associativity).

(** [try: body  except Exception as e: handler(e)].  Every exception of
    the model is an instance of [Exception]. *)
Definition try_except {A} (body : outcome A) (handler : exn -> outcome A)
  : outcome A :=
  match body with
  | Ret a => Ret a
  | Raise e => handler e
  end.
Arguments try_except {A} !body handler /.

(** ** Dictionaries *)

Fixpoint dict_lookup (k : string) (d : dict) : option value :=
  match d with
  | [] => None
  | (k', v) :: d' => if String.eqb k k' then Some v else dict_lookup k d'
  end.

Definition dict_has (k : string) (d : dict) : bool :=
  match dict_lookup k d with Some _ => true | None => false end.

(** [d[k] = v] on an existing dictionary: replace in place or append. *)
Fixpoint dict_set (k : string) (v : value) (d : dict) : dict :=
  match d with
  | [] => [(k, v)]
  | (k', v') :: d' =>
      if String.eqb k k' then (k', v) :: d' else (k', v') :: dict_set k v d'
  end.

(** ** Built-in operations *)

Definition type_name (v : value) : string :=
  match v with
  | VNone => "NoneType"
  | VBool _ => "bool"
  | VInt _ => "int"
  | VFloat _ => "float"
  | VStr _ => "str"
  | VList _ => "list"
  | VDict _ => "dict"
  end.

Definition str_int (z : Z) : string := NilZero.string_of_int (Z.to_int z).

Definition str_bool (b : bool) : string := if b then "True" else "False".

(** [bool(v)] *)
Definition truthy (v : value) : bool :=
  match v with
  | VNone => false
  | VBool b => b
  | VInt z => negb (z =? 0)
  | VFloat q => negb (Qeq_bool q 0)
  | VStr s => negb (String.eqb s "")
  | VList l => match l with [] => false | _ => true end
  | VDict d => match d with [] => false | _ => true end
  end.

(** The number a value stands for in a comparison ([bool] is a subclass
    of [int]; an [int] and a [float] compare by exact value). *)
Definition as_number (v : value) : option Q :=
  match v with
  | VBool b => Some (inject_Z (if b then 1 else 0))
  | VInt z => Some (inject_Z z)
  | VFloat q => Some q
  | _ => None
  end.

(** [a == b], as [list.__contains__] and [dict.__eq__] evaluate it:
    numbers by value, strings and lists pointwise, dictionaries by size
    and then entry by entry of the left one looked up in the right one. *)
Fixpoint py_eqb (a b : value) {struct a} : bool :=
  match a with
  | VNone => match b with VNone => true | _ => false end
  | VBool _ | VInt _ | VFloat _ =>
      match as_number a, as_number b with
      | Some x, Some y => Qeq_bool x y
      | _, _ => false
      end
  | VStr s => match b with VStr t => String.eqb s t | _ => false end
  | VList l =>
      match b with
      | VList m =>
          (fix go (l m : list value) {struct l} : bool :=
             match l, m with
             | [], [] => true
             | x :: l', y :: m' => py_eqb x y && go l' m'
             | _, _ => false
             end) l m
      | _ => false
      end
  | VDict d =>
      match b with
      | VDict e =>
          (length d =? length e)%nat &&
          (fix go (d : dict) {struct d} : bool :=
             match d with
             | [] => true
             | (k, x) :: d' =>
                 match dict_lookup k e with
                 | Some y => py_eqb x y && go d'
                 | None => false
                 end
             end) d
      | _ => false
      end
  end.

(** [needle in haystack] on strings. *)
Fixpoint is_prefix (p s : string) : bool :=
  match p, s with
  | EmptyString, _ => true
  | String a p', String b s' => Ascii.eqb a b && is_prefix p' s'
  | String _ _, EmptyString => false
  end.

Fixpoint is_substring (p s : string) : bool :=
  is_prefix p s ||
  match s with
  | EmptyString => false
  | String _ s' => is_substring p s'
  end.

(** [key in v] for a string [key]. *)
Definition py_contains (key : string) (v : value) : outcome bool :=
  match v with
  | VDict d => Ret (dict_has key d)
  | VList l => Ret (existsb (fun x => py_eqb x (VStr key)) l)
  | VStr s => Ret (is_substring key s)
  | _ => Raise (mkExn TypeError
                  ("argument of type '" ++ type_name v ++ "' is not iterable"))
  end.

(** [v[key]] for a string [key]. *)
Definition py_getitem (v : value) (key : string) : outcome value :=
  match v with
  | VDict d =>
      match dict_lookup key d with
      | Some x => Ret x
      | None => Raise (mkExn KeyError ("'" ++ key ++ "'"))
      end
  | VList _ =>
      Raise (mkExn TypeError "list indices must be integers or slices, not str")
  | VStr _ =>
      Raise (mkExn TypeError "string indices must be integers, not 'str'")
  | _ => Raise (mkExn TypeError
                  ("'" ++ type_name v ++ "' object is not subscriptable"))
  end.

(** [v.get(key, default)] *)
Definition py_get (v : value) (key : string) (default : value) : outcome value :=
  match v with
  | VDict d =>
      match dict_lookup key d with
      | Some x => Ret x
      | None => Ret default
      end
  | _ => Raise (mkExn AttributeError
                  ("'" ++ type_name v ++ "' object has no attribute 'get'"))
  end.

(** [l[:n]] on a sequence of length [len l]: a negative bound counts
    from the end. *)
Definition slice_to {A} (l : list A) (n : Z) : list A :=
  if n <? 0
  then firstn (Z.to_nat (Z.of_nat (length l) + n)) l
  else firstn (Z.to_nat n) l.

Definition chars (s : string) : list value :=
  map (fun c => VStr (String c EmptyString)) (list_ascii_of_string s).

(** [v[:n]] *)
Definition py_slice_to (v : value) (n : Z) : outcome value :=
  match v with
  | VList l => Ret (VList (slice_to l n))
  | VStr s =>
      Ret (VStr (string_of_list_ascii (slice_to (list_ascii_of_string s) n)))
  | VDict _ => Raise (mkExn TypeError "unhashable type: 'slice'")
  | _ => Raise (mkExn TypeError
                  ("'" ++ type_name v ++ "' object is not subscriptable"))
  end.

(** [v[0]] *)
Definition py_first (v : value) : outcome value :=
  match v with
  | VList l =>
      match l with
      | x :: _ => Ret x
      | [] => Raise (mkExn IndexError "list index out of range")
      end
  | VStr s =>
      match s with
      | String c _ => Ret (VStr (String c EmptyString))
      | EmptyString => Raise (mkExn IndexError "string index out of range")
      end
  | VDict _ => Raise (mkExn KeyError "0")
  | _ => Raise (mkExn TypeError
                  ("'" ++ type_name v ++ "' object is not subscriptable"))
  end.

(** The items a [for] loop over [v] visits. *)
Definition py_iter (v : value) : outcome (list value) :=
  match v with
  | VList l => Ret l
  | VStr s => Ret (chars s)
  | VDict d => Ret (map (fun kv => VStr (fst kv)) d)
  | _ => Raise (mkExn TypeError
                  ("'" ++ type_name v ++ "' object is not iterable"))
  end.

(** ** Module-level configuration *)

Definition BITQUERY_API_URL : string := "https://streaming.bitquery.io/graphql".

Definition FOURMEME_PROXY_ADDRESS : string :=
  "0x5c952063c7fc8610FFDB798152D69F0B9550762b".

(** The names bound in the module's namespace when a tool runs: what
    the [import] statements, the assignments, the class and the function
    definitions of [mcp_server.py] introduce. *)
Definition module_globals : list string :=
  [ "FastMCP"; "Context"; "httpx"; "Optional"; "Dict"; "List"; "Any";
    "datetime"; "os"; "load_dotenv"; "mcp";
    "BITQUERY_API_URL"; "BITQUERY_API_KEY"; "FOURMEME_PROXY_ADDRESS";
    "BitqueryClient"; "bitquery";
    "get_trending_tokens"; "get_bonding_curve_progress";
    "get_latest_trades"; "get_token_migration_status";
    "mcp4meme_config"; "fourmeme_proxy_config" ].

(** Evaluating a name that is neither a local variable nor a built-in,
    as is the case of [json]. *)
Definition lookup_global (name : string) : outcome unit :=
  if existsb (String.eqb name) module_globals
  then Ret tt
  else Raise (mkExn NameError ("name '" ++ name ++ "' is not defined")).

(** ** The HTTP transport *)

Record request : Type := mkRequest {
  req_url : string;
  req_json : value;
  req_headers : list (string * string);
  req_timeout : Z
}.

(** What the program observes of an [httpx] response: the status code,
    the body text and the outcome of [response.json()]. *)
Record response : Type := mkResponse {
  status_code : Z;
  text : string;
  json : outcome value
}.

(** [client.post] either yields a response or raises (connection
    failure, DNS, timeout). *)
Definition transport : Type := request -> outcome response.

(** The observable effects of a run: the requests that went out, oldest
    first, and the lines given to the logging sink. *)
Record world : Type := mkWorld {
  sent : list request;
  logged : list string
}.

Definition M (A : Type) : Type := world -> outcome A * world.

Definition ret {A} (a : A) : M A := fun w => (Ret a, w).

Definition lift {A} (r : outcome A) : M A := fun w => (r, w).

Definition mbind {A B} (m : M A) (k : A -> M B) : M B :=
  fun w =>
    match m w with
    | (Ret a, w') => k a w'
    | (Raise e, w') => (Raise e, w')
    end.

Notation "x <~ m ;; k" := (mbind m (fun x => k))
  (at level 61, m at next level, right associativity).

Notation "m ;;; k" := (mbind m (fun _ => k))
  (at level 61, right associativity).

(** [await client.post(url, json=..., headers=..., timeout=...)] *)
Definition post (net : transport) (rq : request) : M response :=
  fun w => (net rq, mkWorld (sent w ++ [rq]) (logged w)).

(** [if ctx: await ctx.info(msg)] *)
Definition info (ctx : bool) (msg : string) : M unit :=
  fun w =>
    if ctx then (Ret tt, mkWorld (sent w) (logged w ++ [msg])) else (Ret tt, w).

(** ** BitqueryClient *)

Definition error_envelope (msg : string) : value :=
  VDict [("error", VStr msg)].

(** [BitqueryClient.__init__]: the header dictionary. *)
Definition BitqueryClient_headers (BITQUERY_API_KEY : string)
  : list (string * string) :=
  let headers := [("Content-Type", "application/json")] in
  if negb (String.eqb BITQUERY_API_KEY "")
  then headers ++ [("X-API-KEY", BITQUERY_API_KEY);
                   ("Authorization", "Bearer " ++ BITQUERY_API_KEY)]
  else headers.

(** Python's [str.isspace] on one character (code points below 256). *)
Definition is_space (c : ascii) : bool :=
  let n := N_of_ascii c in
  ((9 <=? n) && (n <=? 13) || (28 <=? n) && (n <=? 32)
   || (n =? 133) || (n =? 160))%N.

Fixpoint lstrip (s : string) : string :=
  match s with
  | EmptyString => EmptyString
  | String c s' => if is_space c then lstrip s' else s
  end.

(** [bool(text.strip())]: some character is not white space. *)
Definition strip_nonempty (s : string) : bool :=
  negb (String.eqb (lstrip s) "").

(** [text[:200]] *)
Definition text_prefix (s : string) : string := substring 0 200 s.

(** The inner [try] of [execute_query]:
    [try: return response.json()
     except json.JSONDecodeError as json_err: return {"error": ...}].
    When [response.json()] raises, the [except] clause first evaluates
    the expression [json.JSONDecodeError], which reads the global name
    [json]. *)
Definition decode_body (resp : response) : outcome value :=
  match json resp with
  | Ret v => Ret v
  | Raise e =>
      _ <- lookup_global "json" ;;
      match exn_cls e with
      | JSONDecodeError =>
          Ret (error_envelope
                 ("Invalid JSON response: " ++ text_prefix (text resp) ++ "..."))
      | _ => Raise e
      end
  end.

(** [BitqueryClient.execute_query] *)
Definition execute_query (BITQUERY_API_KEY : string) (net : transport)
    (query : string) (variables : value) : M value :=
  let payload := [("query", VStr query)] in
  let payload :=
    if truthy variables then dict_set "variables" variables payload
    else payload in
  if String.eqb BITQUERY_API_KEY "" then
    ret (error_envelope "BITQUERY_API_KEY not provided")
  else
    fun w =>
      let '(r, w') :=
        (response <~ post net
            (mkRequest BITQUERY_API_URL (VDict payload)
               (BitqueryClient_headers BITQUERY_API_KEY) 30) ;;
         if negb (status_code response =? 200) then
           ret (error_envelope
                  ("HTTP " ++ str_int (status_code response) ++ ": "
                   ++ text response))
         else if negb (strip_nonempty (text response)) then
           ret (error_envelope "Empty response from API")
         else
           lift (decode_body response)) w in
      (try_except r
         (fun e => Ret (error_envelope ("Request failed: " ++ exn_msg e))),
       w').

(** ** The GraphQL documents *)

Definition dq : string := String (ascii_of_nat 34) EmptyString.

Definition trending_query : string :=
"
    query GetTrendingTokens($limit: Int!, $time_24hr_ago: DateTime) {
      EVM(network: bsc) {
        DEXTradeByTokens(
          limit: {count: $limit}
          orderBy: {descendingByField: " ++ dq ++ "trades_24hr" ++ dq ++ "}
          where: {
            Trade: {Success: true}
            Block: {Time: {since: $time_24hr_ago}}
          }
        ) {
          Trade {
            Currency {
              Name
              Symbol
              SmartContract
            }
          }
          volume_24hr: sum(of: Trade_Side_AmountInUSD)
          trades_24hr: count
        }
      }
    }
    ".

Definition bonding_curve_query : string :=
"
    query GetBondingCurveProgress($tokenAddress: String!) {
      EVM(network: bsc) {
        Transfers(
          where: {
            Transfer: {
              Currency: {SmartContract: {is: $tokenAddress}}
              Receiver: {is: " ++ dq ++ "0x5c952063c7fc8610FFDB798152D69F0B9550762b" ++ dq ++ "}
            }
          }
          orderBy: {descendingByField: " ++ dq ++ "Block_Time" ++ dq ++ "}
          limit: {count: 1}
        ) {
          Transfer {
            Amount
            Currency {
              Name
              Symbol
              SmartContract
            }
          }
          Block {
            Time
          }
        }
      }
    }
    ".

Definition latest_trades_query : string :=
"
    query GetLatestTrades($tokenAddress: String!, $limit: Int!) {
      EVM(network: bsc) {
        DEXTrades(
          where: {
            Trade: {
              Buy: {Currency: {SmartContract: {is: $tokenAddress}}}
              Dex: {ProtocolName: {is: " ++ dq ++ "fourmeme_v1" ++ dq ++ "}}
              Success: true
            }
          }
          orderBy: {descendingByField: " ++ dq ++ "Block_Time" ++ dq ++ "}
          limit: {count: $limit}
        ) {
          Transaction {
            Hash
          }
          Block {
            Time
            Number
          }
          Trade {
            Buy {
              Buyer
              Amount
              AmountInUSD
              Price
              Currency {
                Symbol
                Name
              }
            }
            Sell {
              Seller
              Amount
              Currency {
                Symbol
                Name
              }
            }
          }
        }
      }
    }
    ".

Definition migration_query : string :=
"
    query GetMigrationStatus($tokenAddress: String!) {
      EVM(network: bsc) {
        DEXTrades(
          where: {
            Trade: {
              Buy: {Currency: {SmartContract: {is: $tokenAddress}}}
              Dex: {ProtocolName: {not: " ++ dq ++ "fourmeme_v1" ++ dq ++ "}}
              Success: true
            }
          }
          orderBy: {ascendingByField: " ++ dq ++ "Block_Time" ++ dq ++ "}
          limit: {count: 5}
        ) {
          Trade {
            Dex {
              ProtocolName
              SmartContract
            }
            Buy {
              Currency {
                Symbol
                Name
              }
            }
            Sell {
              Currency {
                Symbol
                Name
              }
            }
          }
          Block {
            Time
          }
        }
      }
    }
    ".

(** ** The four tools *)

(** [x < y] on numbers carried by their exact value. *)
Definition Qltb (x y : Q) : bool := negb (Qle_bool y x).

(** The descent [result.get("data", {}).get("EVM", {}).get(field, [])]. *)
Definition descend (result : value) (field : string) : outcome value :=
  data <- py_get result "data" (VDict []) ;;
  evm <- py_get data "EVM" (VDict []) ;;
  py_get evm field (VList []).

(** The percentage-to-status chain of [get_bonding_curve_progress]. *)
Definition status_of_progress (mock_progress : Q) : string :=
  if Qltb mock_progress 50 then "early"
  else if Qltb mock_progress 90 then "active"
  else if Qltb mock_progress 95 then "approaching_graduation"
  else "graduated".

Definition mock_progress : Q := 755 # 10.

Section Tools.

(** [repr] of floats and containers is left to the interpreter. *)
Variable py_repr : value -> string.

(** The credential read from the environment at import time, and the
    network the client talks to. *)
Variable BITQUERY_API_KEY : string.
Variable net : transport.

(** [str(v)] *)
Definition py_str (v : value) : string :=
  match v with
  | VStr s => s
  | VInt z => str_int z
  | VBool b => str_bool b
  | VNone => "None"
  | _ => py_repr v
  end.

Definition bitquery_execute_query : string -> value -> M value :=
  execute_query BITQUERY_API_KEY net.

(** *** get_trending_tokens *)

(** One row of the loop: the record appended at position [i]. *)
Definition trending_row (i : Z) (trade : value) : outcome value :=
  t <- py_get trade "Trade" (VDict []) ;;
  token_info <- py_get t "Currency" (VDict []) ;;
  trade_count <- py_get trade "trades_24hr" (VInt 0) ;;
  volume_24hr <- py_get trade "volume_24hr" (VInt 0) ;;
  token_address <- py_get token_info "SmartContract" (VStr "") ;;
  symbol <- py_get token_info "Symbol" (VStr "") ;;
  name <- py_get token_info "Name" (VStr "") ;;
  Ret (VDict [ ("rank", VInt (i + 1));
               ("token_address", token_address);
               ("symbol", symbol);
               ("name", name);
               ("trade_count", trade_count);
               ("volume_24hr_usd", VStr (py_str volume_24hr)) ]).

(** [for i, trade in enumerate(items): trending_tokens.append(...)] *)
Fixpoint trending_loop (i : Z) (items : list value) (trending_tokens : list value)
  : outcome (list value) :=
  match items with
  | [] => Ret trending_tokens
  | trade :: rest =>
      row <- trending_row i trade ;;
      trending_loop (i + 1) rest (trending_tokens ++ [row])
  end.

(** The body of the [try] block. *)
Definition trending_body (result : value) (limit : Z) : outcome (list value) :=
  trades_data <- descend result "DEXTradeByTokens" ;;
  sliced <- py_slice_to trades_data limit ;;
  items <- py_iter sliced ;;
  trending_loop 0 items [].

(** [utcnow_minus_24h] is
    [(datetime.utcnow() - timedelta(hours=24)).isoformat()], the one
    reading of the clock. *)
Definition get_trending_tokens (limit : Z) (ctx : bool)
    (utcnow_minus_24h : string) : M value :=
  let time_24hr_ago := utcnow_minus_24h ++ "Z" in
  info ctx ("Calling Bitquery API with limit: " ++ str_int limit) ;;;
  info ctx ("Time filter: " ++ time_24hr_ago) ;;;
  info ctx ("API Key present: "
            ++ str_bool (negb (String.eqb BITQUERY_API_KEY ""))) ;;;
  (if negb (String.eqb BITQUERY_API_KEY "") then
     info ctx (if (8 <? String.length BITQUERY_API_KEY)%nat
               then "API Key prefix: " ++ substring 0 8 BITQUERY_API_KEY ++ "..."
               else "Key too short")
   else ret tt) ;;;
  result <~ bitquery_execute_query trending_query
              (VDict [("limit", VInt limit);
                      ("time_24hr_ago", VStr time_24hr_ago)]) ;;
  info ctx ("API result: " ++ py_str result) ;;;
  has_error <~ lift (py_contains "error" result) ;;
  if has_error : bool then
    (if ctx then
       e <~ lift (py_getitem result "error") ;;
       info ctx ("API Error: " ++ py_str e)
     else ret tt) ;;;
    e <~ lift (py_getitem result "error") ;;
    ret (VDict [ ("trending_tokens", VList []); ("error", e) ])
  else
    info ctx "Processing API response..." ;;;
    match trending_body result limit with
    | Ret trending_tokens =>
        ret (VDict [ ("trending_tokens", VList trending_tokens);
                     ("total_found",
                      VInt (Z.of_nat (length trending_tokens))) ])
    | Raise e =>
        info ctx ("Error parsing response: " ++ exn_msg e) ;;;
        ret (VDict [ ("trending_tokens", VList []);
                     ("error",
                      VStr ("Failed to parse API response: " ++ exn_msg e)) ])
    end.

(** *** get_bonding_curve_progress *)

Definition bonding_body (token_address : string) (result : value)
  : outcome value :=
  transfers_data <- descend result "Transfers" ;;
  if negb (truthy transfers_data) then
    Ret (VDict [ ("token_address", VStr token_address);
                 ("progress_percentage", VInt 0);
                 ("status", VStr "early");
                 ("message", VStr "No transfers to Four.meme contract found") ])
  else
    let status := status_of_progress mock_progress in
    transfer_info <- py_first transfers_data ;;
    t <- py_get transfer_info "Transfer" (VDict []) ;;
    token_info <- py_get t "Currency" (VDict []) ;;
    symbol <- py_get token_info "Symbol" (VStr "") ;;
    name <- py_get token_info "Name" (VStr "") ;;
    block <- py_get transfer_info "Block" (VDict []) ;;
    last_activity <- py_get block "Time" (VStr "") ;;
    Ret (VDict [ ("token_address", VStr token_address);
                 ("symbol", symbol);
                 ("name", name);
                 ("progress_percentage", VFloat mock_progress);
                 ("status", VStr status);
                 ("graduation_threshold", VFloat (95 # 1));
                 ("last_activity", last_activity) ]).

Definition get_bonding_curve_progress (token_address : string) (ctx : bool)
  : M value :=
  info ctx ("Checking bonding curve progress for token: " ++ token_address) ;;;
  result <~ bitquery_execute_query bonding_curve_query
              (VDict [("tokenAddress", VStr token_address)]) ;;
  info ctx ("Bonding curve API result: " ++ py_str result) ;;;
  has_error <~ lift (py_contains "error" result) ;;
  if has_error : bool then
    e <~ lift (py_getitem result "error") ;;
    ret (VDict [ ("token_address", VStr token_address);
                 ("progress_percentage", VInt 0);
                 ("status", VStr "unknown");
                 ("error", e) ])
  else
    match bonding_body token_address result with
    | Ret record => ret record
    | Raise e =>
        info ctx ("Error parsing bonding curve data: " ++ exn_msg e) ;;;
        ret (VDict [ ("token_address", VStr token_address);
                     ("progress_percentage", VInt 0);
                     ("status", VStr "unknown");
                     ("error",
                      VStr ("Failed to parse response: " ++ exn_msg e)) ])
    end.

(** *** get_latest_trades *)

Definition trade_record (trade : value) : outcome value :=
  trade_info <- py_get trade "Trade" (VDict []) ;;
  buy_info <- py_get trade_info "Buy" (VDict []) ;;
  sell_info <- py_get trade_info "Sell" (VDict []) ;;
  transaction <- py_get trade "Transaction" (VDict []) ;;
  transaction_hash <- py_get transaction "Hash" (VStr "") ;;
  block <- py_get trade "Block" (VDict []) ;;
  timestamp <- py_get block "Time" (VStr "") ;;
  block' <- py_get trade "Block" (VDict []) ;;
  block_number <- py_get block' "Number" (VInt 0) ;;
  buyer <- py_get buy_info "Buyer" (VStr "") ;;
  seller <- py_get sell_info "Seller" (VStr "") ;;
  buy_amount <- py_get buy_info "Amount" (VInt 0) ;;
  sell_amount <- py_get sell_info "Amount" (VInt 0) ;;
  price_usd <- py_get buy_info "AmountInUSD" (VInt 0) ;;
  buy_currency <- py_get buy_info "Currency" (VDict []) ;;
  buy_token <- py_get buy_currency "Symbol" (VStr "") ;;
  sell_currency <- py_get sell_info "Currency" (VDict []) ;;
  sell_token <- py_get sell_currency "Symbol" (VStr "") ;;
  Ret (VDict [ ("transaction_hash", transaction_hash);
               ("timestamp", timestamp);
               ("block_number", block_number);
               ("buyer", buyer);
               ("seller", seller);
               ("buy_amount", VStr (py_str buy_amount));
               ("sell_amount", VStr (py_str sell_amount));
               ("price_usd", VStr (py_str price_usd));
               ("buy_token", buy_token);
               ("sell_token", sell_token) ]).

(** [for trade in items: trades.append(...)] *)
Fixpoint trades_loop (items : list value) (trades : list value)
  : outcome (list value) :=
  match items with
  | [] => Ret trades
  | trade :: rest =>
      record <- trade_record trade ;;
      trades_loop rest (trades ++ [record])
  end.

Definition trades_body (result : value) : outcome (list value) :=
  trades_data <- descend result "DEXTrades" ;;
  items <- py_iter trades_data ;;
  trades_loop items [].

Definition get_latest_trades (token_address : string) (limit : Z) (ctx : bool)
  : M value :=
  info ctx ("Fetching latest trades for token: " ++ token_address) ;;;
  result <~ bitquery_execute_query latest_trades_query
              (VDict [("tokenAddress", VStr token_address);
                      ("limit", VInt limit)]) ;;
  info ctx ("Latest trades API result: " ++ py_str result) ;;;
  has_error <~ lift (py_contains "error" result) ;;
  if has_error : bool then
    e <~ lift (py_getitem result "error") ;;
    ret (VDict [ ("token_address", VStr token_address);
                 ("trades", VList []);
                 ("error", e) ])
  else
    match trades_body result with
    | Ret trades =>
        ret (VDict [ ("token_address", VStr token_address);
                     ("trades", VList trades);
                     ("total_trades", VInt (Z.of_nat (length trades))) ])
    | Raise e =>
        info ctx ("Error parsing trades data: " ++ exn_msg e) ;;;
        ret (VDict [ ("token_address", VStr token_address);
                     ("trades", VList []);
                     ("error",
                      VStr ("Failed to parse response: " ++ exn_msg e)) ])
    end.

(** *** get_token_migration_status *)

(** The [pair_info] dictionary built from one trade. *)
Definition pair_info_of (trade_info dex_info : value) : outcome value :=
  dex_name <- py_get dex_info "ProtocolName" (VStr "") ;;
  dex_contract <- py_get dex_info "SmartContract" (VStr "") ;;
  buy <- py_get trade_info "Buy" (VDict []) ;;
  buy_currency <- py_get buy "Currency" (VDict []) ;;
  buy_token <- py_get buy_currency "Symbol" (VStr "") ;;
  sell <- py_get trade_info "Sell" (VDict []) ;;
  sell_currency <- py_get sell "Currency" (VDict []) ;;
  sell_token <- py_get sell_currency "Symbol" (VStr "") ;;
  Ret (VDict [ ("dex_name", dex_name);
               ("dex_contract", dex_contract);
               ("buy_token", buy_token);
               ("sell_token", sell_token) ]).

(** [pair_info in dex_pairs] *)
Definition pair_in (pair_info : value) (dex_pairs : list value) : bool :=
  existsb (fun item => py_eqb item pair_info) dex_pairs.

(** The loop over the trades, threading [dex_pairs] and
    [migration_timestamp]. *)
Fixpoint migration_loop (items : list value) (dex_pairs : list value)
    (migration_timestamp : value) : outcome (list value * value) :=
  match items with
  | [] => Ret (dex_pairs, migration_timestamp)
  | trade :: rest =>
      trade_info <- py_get trade "Trade" (VDict []) ;;
      dex_info <- py_get trade_info "Dex" (VDict []) ;;
      migration_timestamp <-
        (if negb (truthy migration_timestamp) then
           block <- py_get trade "Block" (VDict []) ;;
           py_get block "Time" (VStr "")
         else Ret migration_timestamp) ;;
      pair_info <- pair_info_of trade_info dex_info ;;
      let dex_pairs :=
        if negb (pair_in pair_info dex_pairs)
        then (dex_pairs ++ [pair_info])%list else dex_pairs in
      migration_loop rest dex_pairs migration_timestamp
  end.

Definition migration_body (token_address : string) (result : value)
  : outcome value :=
  trades_data <- descend result "DEXTrades" ;;
  if negb (truthy trades_data) then
    Ret (VDict [ ("token_address", VStr token_address);
                 ("is_migrated", VBool false);
                 ("status", VStr "bonding_curve_only");
                 ("dex_pairs", VList []);
                 ("message",
                  VStr "Token still trading only on Four.meme bonding curve") ])
  else
    items <- py_iter trades_data ;;
    st <- migration_loop items [] VNone ;;
    let '(dex_pairs, migration_timestamp) := st in
    Ret (VDict [ ("token_address", VStr token_address);
                 ("is_migrated", VBool true);
                 ("status", VStr "migrated_to_dex");
                 ("migration_timestamp", migration_timestamp);
                 ("dex_pairs", VList dex_pairs);
                 ("total_dex_pairs", VInt (Z.of_nat (length dex_pairs))) ]).

Definition get_token_migration_status (token_address : string) (ctx : bool)
  : M value :=
  info ctx ("Checking migration status for token: " ++ token_address) ;;;
  result <~ bitquery_execute_query migration_query
              (VDict [("tokenAddress", VStr token_address)]) ;;
  info ctx ("Migration API result: " ++ py_str result) ;;;
  has_error <~ lift (py_contains "error" result) ;;
  if has_error : bool then
    e <~ lift (py_getitem result "error") ;;
    ret (VDict [ ("token_address", VStr token_address);
                 ("is_migrated", VBool false);
                 ("dex_pairs", VList []);
                 ("error", e) ])
  else
    match migration_body token_address result with
    | Ret record => ret record
    | Raise e =>
        info ctx ("Error parsing migration data: " ++ exn_msg e) ;;;
        ret (VDict [ ("token_address", VStr token_address);
                     ("is_migrated", VBool false);
                     ("dex_pairs", VList []);
                     ("error",
                      VStr ("Failed to parse response: " ++ exn_msg e)) ])
    end.

End Tools.

(** ** The configuration resources *)

(** [mcp4meme_config] *)
Definition mcp4meme_config (BITQUERY_API_KEY : string) : value :=
  VDict [ ("name", VStr "MCP4Meme Server");
          ("version", VStr "2.0.0");
          ("features", VList [ VStr "trending_tokens";
                               VStr "bonding_curve_progress";
                               VStr "latest_trades";
                               VStr "token_migration_status" ]);
          ("networks", VList [VStr "bsc"]);
          ("fourmeme_proxy", VStr FOURMEME_PROXY_ADDRESS);
          ("api_endpoints", VDict [("bitquery", VStr BITQUERY_API_URL)]);
          ("mock_mode",
           VBool (negb (negb (String.eqb BITQUERY_API_KEY "")))) ].

(** [fourmeme_proxy_config] *)
Definition fourmeme_proxy_config : value :=
  VDict [ ("contract_address", VStr FOURMEME_PROXY_ADDRESS);
          ("network", VStr "bsc");
          ("graduation_threshold", VFloat (95 # 1));
          ("bonding_curve_formula",
           VStr "100 - ((leftTokens * 100) / initialRealTokenReserves)") ].

(** ** Vocabulary of the statements *)

Definition is_dict (v : value) : bool :=
  match v with VDict _ => true | _ => false end.

(** [record[k]] when [record] is a dictionary holding [k]. *)
Definition field (k : string) (record : value) : option value :=
  match record with
  | VDict d => dict_lookup k d
  | _ => None
  end.

Definition has_field (k : string) (record : value) : bool :=
  match field k record with Some _ => true | None => false end.

(** A world in which nothing happened yet. *)
Definition idle : world := mkWorld [] [].

(** What the client hands back for a query; the world it runs in only
    collects the request. *)
Definition query_result (BITQUERY_API_KEY : string) (net : transport)
    (query : string) (variables : value) : outcome value :=
  fst (execute_query BITQUERY_API_KEY net query variables idle).

(** The variables each tool sends. *)
Definition trending_variables (limit : Z) (utcnow_minus_24h : string) : value :=
  VDict [("limit", VInt limit);
         ("time_24hr_ago", VStr (utcnow_minus_24h ++ "Z"))].

Definition address_variables (token_address : string) : value :=
  VDict [("tokenAddress", VStr token_address)].

Definition trades_variables (token_address : string) (limit : Z) : value :=
  VDict [("tokenAddress", VStr token_address); ("limit", VInt limit)].

(** A server that answers every request with status 200, the given body
    and the given decoding of it. *)
Definition answering (body : string) (decoded : outcome value) : transport :=
  fun _ => Ret (mkResponse 200 body decoded).

(** A stand-in for the interpreter's [repr] in the worked examples. *)
Definition sample_repr (v : value) : string := "<" ++ type_name v ++ ">".

(** ** The normalizers *)

(** The record each tool computes from the client's answer, the calls
    to the logging sink left out.  [tool_value] lemmas below tie them to
    the tools. *)
Section Normalizers.

Variable py_repr : value -> string.

Definition trending_normalizer (limit : Z) (result : value) : outcome value :=
  has_error <- py_contains "error" result ;;
  if has_error : bool then
    e <- py_getitem result "error" ;;
    Ret (VDict [ ("trending_tokens", VList []); ("error", e) ])
  else
    try_except
      (trending_tokens <- trending_body py_repr result limit ;;
       Ret (VDict [ ("trending_tokens", VList trending_tokens);
                    ("total_found",
                     VInt (Z.of_nat (length trending_tokens))) ]))
      (fun e =>
         Ret (VDict [ ("trending_tokens", VList []);
                      ("error",
                       VStr ("Failed to parse API response: " ++ exn_msg e)) ])).

Definition bonding_normalizer (token_address : string) (result : value)
  : outcome value :=
  has_error <- py_contains "error" result ;;
  if has_error : bool then
    e <- py_getitem result "error" ;;
    Ret (VDict [ ("token_address", VStr token_address);
                 ("progress_percentage", VInt 0);
                 ("status", VStr "unknown");
                 ("error", e) ])
  else
    try_except (bonding_body token_address result)
      (fun e =>
         Ret (VDict [ ("token_address", VStr token_address);
                      ("progress_percentage", VInt 0);
                      ("status", VStr "unknown");
                      ("error",
                       VStr ("Failed to parse response: " ++ exn_msg e)) ])).

Definition trades_normalizer (token_address : string) (result : value)
  : outcome value :=
  has_error <- py_contains "error" result ;;
  if has_error : bool then
    e <- py_getitem result "error" ;;
    Ret (VDict [ ("token_address", VStr token_address);
                 ("trades", VList []);
                 ("error", e) ])
  else
    try_except
      (trades <- trades_body py_repr result ;;
       Ret (VDict [ ("token_address", VStr token_address);
                    ("trades", VList trades);
                    ("total_trades", VInt (Z.of_nat (length trades))) ]))
      (fun e =>
         Ret (VDict [ ("token_address", VStr token_address);
                      ("trades", VList []);
                      ("error",
                       VStr ("Failed to parse response: " ++ exn_msg e)) ])).

Definition migration_normalizer (token_address : string) (result : value)
  : outcome value :=
  has_error <- py_contains "error" result ;;
  if has_error : bool then
    e <- py_getitem result "error" ;;
    Ret (VDict [ ("token_address", VStr token_address);
                 ("is_migrated", VBool false);
                 ("dex_pairs", VList []);
                 ("error", e) ])
  else
    try_except (migration_body token_address result)
      (fun e =>
         Ret (VDict [ ("token_address", VStr token_address);
                      ("is_migrated", VBool false);
                      ("dex_pairs", VList []);
                      ("error",
                       VStr ("Failed to parse response: " ++ exn_msg e)) ])).

End Normalizers.

(** ** Record shapes *)

Definition carries_all (fields : list string) (record : value) : bool :=
  forallb (fun f => has_field f record) fields.

(** The fields section 3 of the specification gives [BondingCurveStatus]
    and [MigrationStatus], in the spelling of the code. *)
Definition BondingCurveStatus_fields : list string :=
  [ "token_address"; "symbol"; "name"; "progress_percentage"; "status";
    "graduation_threshold"; "last_activity" ].

Definition MigrationStatus_fields : list string :=
  [ "token_address"; "is_migrated"; "status"; "migration_timestamp";
    "dex_pairs"; "total_dex_pairs" ].

(** A server that answers every request with the given status and body;
    the body does not decode. *)
Definition failing (status : Z) (body : string) : transport :=
  fun _ => Ret (mkResponse status body
                  (Raise (mkExn JSONDecodeError
                            "Expecting value: line 1 column 1 (char 0)"))).

(** ** Well-formed rows *)

(** [d.get(k, {})] is a dictionary on which [inner] holds: the key is
    absent, or it holds a dictionary. *)
Definition sub_dict_ok (k : string) (d : dict) (inner : dict -> bool) : bool :=
  match dict_lookup k d with
  | None => inner []
  | Some (VDict d') => inner d'
  | Some _ => false
  end.

Definition anything (_ : dict) : bool := true.


(** A row of the migration query's [DEXTrades]: an object whose [Trade],
    [Trade.Dex], [Trade.Buy], [Trade.Buy.Currency], [Trade.Sell],
    [Trade.Sell.Currency] and [Block], when present, are objects. *)
Definition migration_row_ok (row : value) : bool :=
  match row with
  | VDict d =>
      sub_dict_ok "Trade" d
        (fun t =>
           sub_dict_ok "Dex" t anything
           && sub_dict_ok "Buy" t (fun b => sub_dict_ok "Currency" b anything)
           && sub_dict_ok "Sell" t (fun s => sub_dict_ok "Currency" s anything))
      && sub_dict_ok "Block" d anything
  | _ => false
  end.

Definition TokenSummary_fields : list string :=
  [ "rank"; "token_address"; "symbol"; "name"; "trade_count";
    "volume_24hr_usd" ].

(** A trending row for the worked examples. *)
Definition sample_row (n : Z) : value :=
  VDict [ ("Trade",
           VDict [("Currency",
                   VDict [ ("Name", VStr ("Token " ++ str_int n));
                           ("Symbol", VStr ("T" ++ str_int n));
                           ("SmartContract", VStr ("0x" ++ str_int n)) ])]);
          ("volume_24hr", VStr "12.5");
          ("trades_24hr", VStr "7") ].

Definition trending_payload (rows : list value) : value :=
  VDict [("data", VDict [("EVM", VDict [("DEXTradeByTokens", VList rows)])])].

Definition fifteen_rows : list value :=
  map sample_row [101; 102; 103; 104; 105; 106; 107; 108; 109; 110;
                  111; 112; 113; 114; 115].

(** ** Structural induction on values *)

Section ValueInduction.

Variable P : value -> Prop.
Hypothesis P_none : P VNone.
Hypothesis P_bool : forall b, P (VBool b).
Hypothesis P_int : forall z, P (VInt z).
Hypothesis P_float : forall q, P (VFloat q).
Hypothesis P_str : forall s, P (VStr s).
Hypothesis P_list : forall l, Forall P l -> P (VList l).
Hypothesis P_dict : forall d, Forall (fun kv => P (snd kv)) d -> P (VDict d).


End ValueInduction.

(** ** Equality of pairs *)






(** The [pair_info] the loop of [get_token_migration_status] builds
    from one trade. *)
Definition row_pair (trade : value) : outcome value :=
  trade_info <- py_get trade "Trade" (VDict []) ;;
  dex_info <- py_get trade_info "Dex" (VDict []) ;;
  pair_info_of trade_info dex_info.



(** One step of the loop on [dex_pairs]:
    [if pair_info not in dex_pairs: dex_pairs.append(pair_info)]. *)
Definition keep_new (dex_pairs : list value) (pair_info : value) : list value :=
  if negb (pair_in pair_info dex_pairs)
  then (dex_pairs ++ [pair_info])%list else dex_pairs.

Definition pair_record (dex_name dex_contract buy_token sell_token : value)
  : value :=
  VDict [ ("dex_name", dex_name); ("dex_contract", dex_contract);
          ("buy_token", buy_token); ("sell_token", sell_token) ].

Definition is_pair_record (p : value) : Prop :=
  exists a b c d, p = pair_record a b c d.



(** A trade of the migration query for the worked examples. *)
Definition sample_trade (protocol contract buy sell time : string) : value :=
  VDict [ ("Trade",
           VDict [ ("Dex", VDict [ ("ProtocolName", VStr protocol);
                                   ("SmartContract", VStr contract) ]);
                   ("Buy", VDict [("Currency",
                                   VDict [ ("Symbol", VStr buy);
                                           ("Name", VStr buy) ])]);
                   ("Sell", VDict [("Currency",
                                    VDict [ ("Symbol", VStr sell);
                                            ("Name", VStr sell) ])]) ]);
          ("Block", VDict [("Time", VStr time)]) ].

Definition migration_payload (trades : list value) : value :=
  VDict [("data", VDict [("EVM", VDict [("DEXTrades", VList trades)])])].

(** ** Vocabulary of the further properties *)

(** The request a call of the client puts on the wire. *)
Definition the_request (key query : string) (variables : value) : request :=
  mkRequest "https://streaming.bitquery.io/graphql"
    (VDict (("query", VStr query)
            :: (if truthy variables then [("variables", variables)] else [])))
    [ ("Content-Type", "application/json");
      ("X-API-KEY", key);
      ("Authorization", "Bearer " ++ key) ]
    30.

(** What a call of the client puts on the wire: nothing without a key. *)
Definition outgoing (key query : string) (variables : value) : list request :=
  if String.eqb key "" then [] else [the_request key query variables].

(** A server that answers every request with the given status, body
    and decoding of the body. *)
Definition answering_status (status : Z) (body : string)
    (decoded : outcome value) : transport :=
  fun _ => Ret (mkResponse status body decoded).

(** A body of a space, a tab, a carriage return and a line feed. *)
Definition blank_body : string :=
  String (ascii_of_nat 32)
    (String (ascii_of_nat 9)
       (String (ascii_of_nat 13) (String (ascii_of_nat 10) EmptyString))).

(** The client's answer to each tool's query. *)
Definition trending_answer (key : string) (net : transport) (limit : Z)
    (utcnow_minus_24h : string) : outcome value :=
  query_result key net trending_query
    (trending_variables limit utcnow_minus_24h).

Definition bonding_answer (key : string) (net : transport)
    (token_address : string) : outcome value :=
  query_result key net bonding_curve_query (address_variables token_address).

Definition trades_answer (key : string) (net : transport)
    (token_address : string) (limit : Z) : outcome value :=
  query_result key net latest_trades_query
    (trades_variables token_address limit).

Definition migration_answer (key : string) (net : transport)
    (token_address : string) : outcome value :=
  query_result key net migration_query (address_variables token_address).

(** The error record of each tool. *)
Definition trending_error (e : value) : value :=
  VDict [ ("trending_tokens", VList []); ("error", e) ].

Definition bonding_error (token_address : string) (e : value) : value :=
  VDict [ ("token_address", VStr token_address);
          ("progress_percentage", VInt 0);
          ("status", VStr "unknown");
          ("error", e) ].

Definition trades_error (token_address : string) (e : value) : value :=
  VDict [ ("token_address", VStr token_address);
          ("trades", VList []);
          ("error", e) ].

Definition migration_error (token_address : string) (e : value) : value :=
  VDict [ ("token_address", VStr token_address);
          ("is_migrated", VBool false);
          ("dex_pairs", VList []);
          ("error", e) ].

(** The four tools, run on the same client, all return their error
    record with [e] as the error. *)
Definition all_tools_report (py_repr : value -> string) (key : string)
    (net : transport) (token_address : string) (limit : Z) (ctx : bool)
    (utcnow_minus_24h : string) (w : world) (e : value) : Prop :=
  fst (get_trending_tokens py_repr key net limit ctx utcnow_minus_24h w)
  = Ret (trending_error e)
  /\ fst (get_bonding_curve_progress py_repr key net token_address ctx w)
     = Ret (bonding_error token_address e)
  /\ fst (get_latest_trades py_repr key net token_address limit ctx w)
     = Ret (trades_error token_address e)
  /\ fst (get_token_migration_status py_repr key net token_address ctx w)
     = Ret (migration_error token_address e).

(** The answers on which the test ["error" in result] and the
    subscript [result["error"]] after it do not both succeed or both
    stay out of the way: no container at all, a string with [error]
    inside, a list with the element ["error"]. *)
Definition breaks_error_test (result : value) : bool :=
  match result with
  | VDict _ => false
  | VList l => existsb (fun x => py_eqb x (VStr "error")) l
  | VStr s => is_substring "error" s
  | _ => true
  end.

(** The list a tool looks for under [data.EVM.<field>] is not there:
    [data] is missing, or [EVM] under it, or the list under that. *)
Definition list_missing (field : string) (d : dict) : Prop :=
  dict_lookup "data" d = None
  \/ (exists data,
         dict_lookup "data" d = Some (VDict data)
         /\ (dict_lookup "EVM" data = None
             \/ exists evm,
                  dict_lookup "EVM" data = Some (VDict evm)
                  /\ dict_lookup field evm = None)).

(** [v.get(k1, {}).get(k2, {}) ... .get(leaf, default)] *)
Fixpoint get_path (v : value) (path : list string) (leaf : string)
    (default : value) : outcome value :=
  match path with
  | [] => py_get v leaf default
  | k :: rest =>
      sub <- py_get v k (VDict []) ;;
      get_path sub rest leaf default
  end.


Definition TradeRecord_fields : list string :=
  [ "transaction_hash"; "timestamp"; "block_number"; "buyer"; "seller";
    "buy_amount"; "sell_amount"; "price_usd"; "buy_token"; "sell_token" ].

(** A row of [Transfers]: an object whose [Transfer],
    [Transfer.Currency] and [Block], when present, are objects. *)
Definition transfer_ok (transfer : value) : bool :=
  match transfer with
  | VDict d =>
      sub_dict_ok "Transfer" d (fun t => sub_dict_ok "Currency" t anything)
      && sub_dict_ok "Block" d anything
  | _ => false
  end.

(** The statuses of the bonding curve, in the order of the chain. *)
Definition severity (status : string) : nat :=
  if String.eqb status "early" then 0
  else if String.eqb status "active" then 1
  else if String.eqb status "approaching_graduation" then 2
  else if String.eqb status "graduated" then 3
  else 4.

(** The first truthy element of a list; when there is none, the last
    element, and [None] for the empty list. *)
Definition first_truthy_or_last (times : list value) : value :=
  match find truthy times with
  | Some t => t
  | None => last times VNone
  end.

(** ** Record shapes by outcome *)

(** The record of [get_bonding_curve_progress] when no transfer was
    found, and of [get_token_migration_status] when no trade was. *)
Definition early_record (token_address : string) : value :=
  VDict [ ("token_address", VStr token_address);
          ("progress_percentage", VInt 0);
          ("status", VStr "early");
          ("message", VStr "No transfers to Four.meme contract found") ].

Definition bonding_curve_only_record (token_address : string) : value :=
  VDict [ ("token_address", VStr token_address);
          ("is_migrated", VBool false);
          ("status", VStr "bonding_curve_only");
          ("dex_pairs", VList []);
          ("message",
           VStr "Token still trading only on Four.meme bonding curve") ].

(** The tool failed on the answer [d]: it holds the key [error], or the
    body of the [try] block raised. *)
Definition failed {A : Type} (d : dict) (body : outcome A) : Prop :=
  dict_has "error" d = true \/ exists e, body = Raise e.

(** The answer [d] holds no [error] and nothing under
    [data.EVM.<field>]: the descent yields a falsy value, such as the
    empty list it defaults to. *)
Definition found_nothing (d : dict) (field : string) : Prop :=
  dict_has "error" d = false
  /\ exists v, descend (VDict d) field = Ret v /\ truthy v = false.

(** The records a tool can return.  A failure is the error record, in
    which the core fields hold their defaults and no other field of the
    schema is present.  A success carries every field of the schema:
    each trending token the six of [TokenSummary], each trade the ten of
    [TradeRecord], the bonding record the seven of [BondingCurveStatus],
    the migration record the six of [MigrationStatus].  In between are
    the two records for an empty upstream list. *)
Definition trending_shape (record : value) : Prop :=
  (exists e, record = trending_error e)
  \/ (exists tokens,
         record = VDict [ ("trending_tokens", VList tokens);
                          ("total_found", VInt (Z.of_nat (length tokens))) ]
         /\ Forall (fun token => carries_all TokenSummary_fields token = true)
              tokens).

Definition bonding_shape (token_address : string) (record : value) : Prop :=
  (exists e, record = bonding_error token_address e)
  \/ record = early_record token_address
  \/ (field "token_address" record = Some (VStr token_address)
      /\ carries_all BondingCurveStatus_fields record = true
      /\ has_field "error" record = false
      /\ has_field "message" record = false).

Definition trades_shape (token_address : string) (record : value) : Prop :=
  (exists e, record = trades_error token_address e)
  \/ (exists trades,
         record = VDict [ ("token_address", VStr token_address);
                          ("trades", VList trades);
                          ("total_trades", VInt (Z.of_nat (length trades))) ]
         /\ Forall (fun trade => carries_all TradeRecord_fields trade = true)
              trades).

Definition migration_shape (token_address : string) (record : value) : Prop :=
  (exists e, record = migration_error token_address e)
  \/ record = bonding_curve_only_record token_address
  \/ (field "token_address" record = Some (VStr token_address)
      /\ field "is_migrated" record = Some (VBool true)
      /\ field "status" record = Some (VStr "migrated_to_dex")
      /\ carries_all MigrationStatus_fields record = true
      /\ has_field "error" record = false
      /\ has_field "message" record = false).

(** ** The client: what is always true *)

Lemma execute_query_value (key : string) (net : transport) (query : string)
    (variables : value) (w : world) :
  fst (execute_query key net query variables w)
  = query_result key net query variables.
Proof.
  unfold query_result, execute_query.
  destruct (String.eqb key ""); [reflexivity|].
  unfold mbind, post, ret, lift. cbn.
  destruct (net _) as [resp|e]; cbn; [|reflexivity].
  destruct (negb (status_code resp =? 200)); cbn; [reflexivity|].
  destruct (negb (strip_nonempty (text resp))); reflexivity.
Qed.

(** Whatever the transport does, [execute_query] hands a value back:
    the decoded body, or an error envelope. *)
Lemma execute_query_total (key : string) (net : transport) (query : string)
    (variables : value) :
  exists v, query_result key net query variables = Ret v
    /\ (has_field "error" v = true
        \/ exists rq resp, net rq = Ret resp /\ status_code resp = 200
             /\ strip_nonempty (text resp) = true /\ json resp = Ret v).
Proof.
  unfold query_result, execute_query.
  destruct (String.eqb key ""); [eexists; split; [reflexivity|now left]|].
  unfold mbind, post, ret, lift. cbn.
  match goal with |- context [net ?r] => set (rq := r) end.
  destruct (net rq) as [resp|e] eqn:Hnet; cbn;
    [|eexists; split; [reflexivity|now left]].
  destruct (status_code resp =? 200) eqn:Hst; cbn;
    [|eexists; split; [reflexivity|now left]].
  destruct (strip_nonempty (text resp)) eqn:Hbody; cbn;
    [|eexists; split; [reflexivity|now left]].
  unfold decode_body.
  destruct (json resp) as [v|e] eqn:Hjson; cbn.
  - exists v. split; [reflexivity|]. right. exists rq, resp.
    apply Z.eqb_eq in Hst. auto.
  - eexists; split; [reflexivity|now left].
Qed.

(** A body that does not decode is reported by the outer handler: the
    inner [except] clause fails on the unbound name [json] before it can
    match the exception. *)
Lemma undecodable_body_request_failed (key : string) (net : transport)
    (query : string) (variables : value) (resp : response) (e : exn) :
  key <> "" ->
  (forall rq, net rq = Ret resp) ->
  status_code resp = 200 ->
  strip_nonempty (text resp) = true ->
  json resp = Raise e ->
  query_result key net query variables
  = Ret (error_envelope "Request failed: name 'json' is not defined").
Proof.
  intros Hkey Hnet Hst Hbody Hjson.
  unfold query_result, execute_query.
  apply String.eqb_neq in Hkey. rewrite Hkey.
  unfold mbind, post, ret, lift. cbn. rewrite Hnet. cbn.
  rewrite Hst, Hbody. cbn. unfold decode_body. rewrite Hjson. reflexivity.
Qed.

(** ** The tools as client call followed by normalizer *)

(** The value of a tool run: split on the sink, name the client's
    answer, then follow the branches of the tool. *)
Ltac name_client_answer :=
  match goal with
  | |- context [execute_query ?k ?n ?q ?v ?w] =>
      let Hq := fresh "Hq" in
      let r := fresh "r" in
      pose proof (execute_query_value k n q v w) as Hq;
      destruct (execute_query k n q v w) as [r ?];
      cbn in Hq; rewrite <- Hq;
      destruct r as [?result|?e]; cbn; [|reflexivity]
  end.

Ltac follow_branches body :=
  match goal with
  | |- context [py_contains "error" ?result] =>
      destruct (py_contains "error" result) as [[|]|?e]; cbn;
      [ destruct (py_getitem result "error"); cbn; reflexivity
      | destruct body; reflexivity
      | reflexivity ]
  end.

Lemma get_trending_tokens_value (py_repr : value -> string) (key : string)
    (net : transport) (limit : Z) (ctx : bool) (utcnow_minus_24h : string)
    (w : world) :
  fst (get_trending_tokens py_repr key net limit ctx utcnow_minus_24h w)
  = (result <- query_result key net trending_query
                 (trending_variables limit utcnow_minus_24h) ;;
     trending_normalizer py_repr limit result).
Proof.
  unfold get_trending_tokens, trending_normalizer, trending_variables.
  unfold mbind, info, ret, lift, bitquery_execute_query.
  destruct ctx; cbn; destruct (negb (String.eqb key "")); cbn;
    name_client_answer;
    follow_branches (trending_body py_repr result limit).
Qed.

Lemma get_bonding_curve_progress_value (py_repr : value -> string)
    (key : string) (net : transport) (token_address : string) (ctx : bool)
    (w : world) :
  fst (get_bonding_curve_progress py_repr key net token_address ctx w)
  = (result <- query_result key net bonding_curve_query
                 (address_variables token_address) ;;
     bonding_normalizer token_address result).
Proof.
  unfold get_bonding_curve_progress, bonding_normalizer, address_variables.
  unfold mbind, info, ret, lift, bitquery_execute_query.
  destruct ctx; cbn; name_client_answer;
    follow_branches (bonding_body token_address result).
Qed.

Lemma get_latest_trades_value (py_repr : value -> string) (key : string)
    (net : transport) (token_address : string) (limit : Z) (ctx : bool)
    (w : world) :
  fst (get_latest_trades py_repr key net token_address limit ctx w)
  = (result <- query_result key net latest_trades_query
                 (trades_variables token_address limit) ;;
     trades_normalizer py_repr token_address result).
Proof.
  unfold get_latest_trades, trades_normalizer, trades_variables.
  unfold mbind, info, ret, lift, bitquery_execute_query.
  destruct ctx; cbn; name_client_answer;
    follow_branches (trades_body py_repr result).
Qed.

Lemma get_token_migration_status_value (py_repr : value -> string)
    (key : string) (net : transport) (token_address : string) (ctx : bool)
    (w : world) :
  fst (get_token_migration_status py_repr key net token_address ctx w)
  = (result <- query_result key net migration_query
                 (address_variables token_address) ;;
     migration_normalizer token_address result).
Proof.
  unfold get_token_migration_status, migration_normalizer, address_variables.
  unfold mbind, info, ret, lift, bitquery_execute_query.
  destruct ctx; cbn; name_client_answer;
    follow_branches (migration_body token_address result).
Qed.

(** ** The client: the claims *)

(** C4 (confirmed).  With no API key configured ([BITQUERY_API_KEY] is
    the empty string), [execute_query] answers every query with the
    envelope [{"error": "BITQUERY_API_KEY not provided"}] and leaves the
    world as it found it, so no POST goes out; and each of the four
    tools returns its error variant carrying that string, the list of
    sent requests unchanged. *)
Theorem no_credential_no_request (py_repr : value -> string)
    (net : transport) (token_address : string) (limit : Z) (ctx : bool)
    (utcnow_minus_24h : string) (w : world) :
  let refusal := VStr "BITQUERY_API_KEY not provided" in
  (forall query variables,
      execute_query "" net query variables w
      = (Ret (VDict [("error", refusal)]), w))
  /\ (let run := get_trending_tokens py_repr "" net limit ctx
                   utcnow_minus_24h w in
      fst run = Ret (VDict [ ("trending_tokens", VList []);
                             ("error", refusal) ])
      /\ sent (snd run) = sent w)
  /\ (let run := get_bonding_curve_progress py_repr "" net token_address
                   ctx w in
      fst run = Ret (VDict [ ("token_address", VStr token_address);
                             ("progress_percentage", VInt 0);
                             ("status", VStr "unknown");
                             ("error", refusal) ])
      /\ sent (snd run) = sent w)
  /\ (let run := get_latest_trades py_repr "" net token_address limit
                   ctx w in
      fst run = Ret (VDict [ ("token_address", VStr token_address);
                             ("trades", VList []);
                             ("error", refusal) ])
      /\ sent (snd run) = sent w)
  /\ (let run := get_token_migration_status py_repr "" net token_address
                   ctx w in
      fst run = Ret (VDict [ ("token_address", VStr token_address);
                             ("is_migrated", VBool false);
                             ("dex_pairs", VList []);
                             ("error", refusal) ])
      /\ sent (snd run) = sent w).
Proof.
  cbv zeta. split.
  - intros query variables. unfold execute_query. reflexivity.
  - repeat split; destruct ctx; reflexivity.
Qed.

(** C3 (the code departs from the claim).  Status 200, the body
    [<html>Bad Gateway</html>], [response.json()] raising
    [JSONDecodeError]: the envelope says
    [Request failed: name 'json' is not defined], not
    [Invalid JSON response: <html>Bad Gateway</html>...]. *)
Theorem invalid_json_body_reported_as_request_failed :
  let body := "<html>Bad Gateway</html>" in
  let net := answering body
               (Raise (mkExn JSONDecodeError
                         "Expecting value: line 1 column 1 (char 0)")) in
  query_result "secret" net trending_query VNone
  = Ret (VDict [("error",
                 VStr "Request failed: name 'json' is not defined")])
  /\ query_result "secret" net trending_query VNone
     <> Ret (VDict [("error",
                     VStr ("Invalid JSON response: " ++ substring 0 200 body
                           ++ "..."))]).
Proof.
  cbv zeta. split.
  - reflexivity.
  - intro H. vm_compute in H. discriminate H.
Qed.

(** C1 (the code departs from the claim).  Status 200 and the body
    [null], which decodes to [None]: [execute_query] returns [None],
    which is no dictionary, and [get_trending_tokens] then raises
    [TypeError] to its caller at the test ["error" in result].  The
    same happens with any body that decodes to a number or a boolean. *)
Theorem execute_query_returns_non_dictionary :
  let net := answering "null" (Ret VNone) in
  query_result "secret" net trending_query
    (trending_variables 10 "2026-01-01T00:00:00") = Ret VNone
  /\ is_dict VNone = false
  /\ has_field "error" VNone = false
  /\ fst (get_trending_tokens sample_repr "secret" net 10 false
            "2026-01-01T00:00:00" idle)
     = Raise (mkExn TypeError "argument of type 'NoneType' is not iterable")
  /\ query_result "secret" (answering "5" (Ret (VInt 5))) trending_query
       (trending_variables 10 "2026-01-01T00:00:00") = Ret (VInt 5).
Proof.
  cbv zeta. repeat split.
Qed.

(** ** Record shapes: the claims *)

(** Runs a body of binds to its end, one bound computation at a time. *)
Ltac step_binds :=
  repeat match goal with
         | |- context [if ?c then _ else _] => destruct c; cbn
         | |- context [bind ?m _] => destruct m; cbn
         | |- context [try_except ?m _] => destruct m; cbn
         end.

Lemma error_field_of_dict (d : dict) :
  dict_has "error" d = true ->
  exists e, py_getitem (VDict d) "error" = Ret e.
Proof.
  unfold dict_has, py_getitem.
  destruct (dict_lookup "error" d); [eauto|discriminate].
Qed.

(** The error test of a normalizer on a dictionary. *)
Ltac split_on_error_key d :=
  change (py_contains "error" (VDict d)) with (Ret (dict_has "error" d));
  unfold bind at 1;
  let Herr := fresh "Herr" in
  destruct (dict_has "error" d) eqn:Herr;
  [ let e := fresh "e" in
    let He := fresh "He" in
    destruct (error_field_of_dict d Herr) as [e He]; rewrite He; cbn
  | ].

(** ** The empty upstream lists *)

(** C8 (confirmed).  A non-error payload whose [Transfers] list is
    empty (or missing: the descent then yields the default empty list)
    makes [get_bonding_curve_progress] return [status] ["early"],
    [progress_percentage] 0 and a [message]; the record has no [error]
    field. *)
Theorem bonding_no_transfers_is_early (py_repr : value -> string)
    (key : string) (net : transport) (token_address : string) (ctx : bool)
    (w : world) (result : value) :
  query_result key net bonding_curve_query (address_variables token_address)
  = Ret result ->
  py_contains "error" result = Ret false ->
  descend result "Transfers" = Ret (VList []) ->
  let record :=
    VDict [ ("token_address", VStr token_address);
            ("progress_percentage", VInt 0);
            ("status", VStr "early");
            ("message", VStr "No transfers to Four.meme contract found") ] in
  fst (get_bonding_curve_progress py_repr key net token_address ctx w)
  = Ret record
  /\ has_field "message" record = true
  /\ has_field "error" record = false.
Proof.
  intros Hq Herr Hdesc record. repeat split.
  rewrite get_bonding_curve_progress_value, Hq. cbn.
  unfold bonding_normalizer, bonding_body. rewrite Herr. cbn.
  rewrite Hdesc. reflexivity.
Qed.

Lemma bonding_no_transfers_is_early_witness :
  let payload :=
    VDict [("data", VDict [("EVM", VDict [("Transfers", VList [])])])] in
  fst (get_bonding_curve_progress sample_repr "secret"
         (answering "{}" (Ret payload)) "0xabc" true idle)
  = Ret (VDict [ ("token_address", VStr "0xabc");
                 ("progress_percentage", VInt 0);
                 ("status", VStr "early");
                 ("message",
                  VStr "No transfers to Four.meme contract found") ]).
Proof.
  intro payload.
  refine (proj1 (bonding_no_transfers_is_early sample_repr "secret"
                   (answering "{}" (Ret payload)) "0xabc" true idle payload
                   _ _ _)); reflexivity.
Defined.

(** C7 (confirmed).  A non-error payload whose [DEXTrades] list is empty
    (or missing) makes [get_token_migration_status] return [status]
    ["bonding_curve_only"], [is_migrated] [False], an empty [dex_pairs]
    and a [message]; the record has no [error] field. *)
Theorem migration_no_trades_is_bonding_curve_only (py_repr : value -> string)
    (key : string) (net : transport) (token_address : string) (ctx : bool)
    (w : world) (result : value) :
  query_result key net migration_query (address_variables token_address)
  = Ret result ->
  py_contains "error" result = Ret false ->
  descend result "DEXTrades" = Ret (VList []) ->
  let record :=
    VDict [ ("token_address", VStr token_address);
            ("is_migrated", VBool false);
            ("status", VStr "bonding_curve_only");
            ("dex_pairs", VList []);
            ("message",
             VStr "Token still trading only on Four.meme bonding curve") ] in
  fst (get_token_migration_status py_repr key net token_address ctx w)
  = Ret record
  /\ has_field "message" record = true
  /\ has_field "error" record = false.
Proof.
  intros Hq Herr Hdesc record. repeat split.
  rewrite get_token_migration_status_value, Hq. cbn.
  unfold migration_normalizer, migration_body. rewrite Herr. cbn.
  rewrite Hdesc. reflexivity.
Qed.

Lemma migration_no_trades_is_bonding_curve_only_witness :
  let payload :=
    VDict [("data", VDict [("EVM", VDict [("DEXTrades", VList [])])])] in
  fst (get_token_migration_status sample_repr "secret"
         (answering "{}" (Ret payload)) "0xabc" true idle)
  = Ret (VDict [ ("token_address", VStr "0xabc");
                 ("is_migrated", VBool false);
                 ("status", VStr "bonding_curve_only");
                 ("dex_pairs", VList []);
                 ("message",
                  VStr "Token still trading only on Four.meme bonding curve") ]).
Proof.
  intro payload.
  refine (proj1 (migration_no_trades_is_bonding_curve_only sample_repr
                   "secret" (answering "{}" (Ret payload)) "0xabc" true idle
                   payload _ _ _)); reflexivity.
Defined.

(** ** Shape mismatches *)

(** C9 (confirmed).  On a payload that passes the error test, an
    exception [e] raised by the body of a tool's [try] block (the
    descent or the mapping of the rows) does not reach the caller: the
    tool returns its error record, whose [error] is [str(e)] after the
    prefix ["Failed to parse response: "], and after
    ["Failed to parse API response: "] for [get_trending_tokens]. *)
Theorem parse_failure_becomes_error_record (py_repr : value -> string)
    (key : string) (net : transport) (token_address : string) (limit : Z)
    (ctx : bool) (utcnow_minus_24h : string) (w : world)
    (result : value) (e : exn) :
  py_contains "error" result = Ret false ->
  (query_result key net trending_query
     (trending_variables limit utcnow_minus_24h) = Ret result ->
   trending_body py_repr result limit = Raise e ->
   fst (get_trending_tokens py_repr key net limit ctx utcnow_minus_24h w)
   = Ret (VDict [ ("trending_tokens", VList []);
                  ("error",
                   VStr ("Failed to parse API response: " ++ exn_msg e)) ]))
  /\ (query_result key net bonding_curve_query
        (address_variables token_address) = Ret result ->
      bonding_body token_address result = Raise e ->
      fst (get_bonding_curve_progress py_repr key net token_address ctx w)
      = Ret (VDict [ ("token_address", VStr token_address);
                     ("progress_percentage", VInt 0);
                     ("status", VStr "unknown");
                     ("error",
                      VStr ("Failed to parse response: " ++ exn_msg e)) ]))
  /\ (query_result key net latest_trades_query
        (trades_variables token_address limit) = Ret result ->
      trades_body py_repr result = Raise e ->
      fst (get_latest_trades py_repr key net token_address limit ctx w)
      = Ret (VDict [ ("token_address", VStr token_address);
                     ("trades", VList []);
                     ("error",
                      VStr ("Failed to parse response: " ++ exn_msg e)) ]))
  /\ (query_result key net migration_query
        (address_variables token_address) = Ret result ->
      migration_body token_address result = Raise e ->
      fst (get_token_migration_status py_repr key net token_address ctx w)
      = Ret (VDict [ ("token_address", VStr token_address);
                     ("is_migrated", VBool false);
                     ("dex_pairs", VList []);
                     ("error",
                      VStr ("Failed to parse response: " ++ exn_msg e)) ])).
Proof.
  intros Herr. repeat split; intros Hq Hbody.
  - rewrite get_trending_tokens_value, Hq. cbn [bind].
    unfold trending_normalizer. rewrite Herr. cbn [bind].
    rewrite Hbody. reflexivity.
  - rewrite get_bonding_curve_progress_value, Hq. cbn [bind].
    unfold bonding_normalizer. rewrite Herr. cbn [bind].
    rewrite Hbody. reflexivity.
  - rewrite get_latest_trades_value, Hq. cbn [bind].
    unfold trades_normalizer. rewrite Herr. cbn [bind].
    rewrite Hbody. reflexivity.
  - rewrite get_token_migration_status_value, Hq. cbn [bind].
    unfold migration_normalizer. rewrite Herr. cbn [bind].
    rewrite Hbody. reflexivity.
Qed.

Lemma parse_failure_becomes_error_record_witness :
  let result := VDict [("data", VNone)] in
  let net := answering "{}" (Ret result) in
  let message := "'NoneType' object has no attribute 'get'" in
  fst (get_trending_tokens sample_repr "secret" net 10 true
         "2026-01-01T00:00:00" idle)
  = Ret (VDict [ ("trending_tokens", VList []);
                 ("error",
                  VStr ("Failed to parse API response: " ++ message)) ])
  /\ fst (get_bonding_curve_progress sample_repr "secret" net "0xabc" true
            idle)
     = Ret (VDict [ ("token_address", VStr "0xabc");
                    ("progress_percentage", VInt 0);
                    ("status", VStr "unknown");
                    ("error", VStr ("Failed to parse response: " ++ message)) ])
  /\ fst (get_latest_trades sample_repr "secret" net "0xabc" 10 true idle)
     = Ret (VDict [ ("token_address", VStr "0xabc");
                    ("trades", VList []);
                    ("error", VStr ("Failed to parse response: " ++ message)) ])
  /\ fst (get_token_migration_status sample_repr "secret" net "0xabc" true
            idle)
     = Ret (VDict [ ("token_address", VStr "0xabc");
                    ("is_migrated", VBool false);
                    ("dex_pairs", VList []);
                    ("error", VStr ("Failed to parse response: " ++ message)) ]).
Proof.
  intros result net message.
  destruct (parse_failure_becomes_error_record sample_repr "secret" net
              "0xabc" 10 true "2026-01-01T00:00:00" idle result
              (mkExn AttributeError message))
    as (Ht & Hb & Hl & Hm); [reflexivity|].
  split; [apply Ht; reflexivity|].
  split; [apply Hb; reflexivity|].
  split; [apply Hl; reflexivity|apply Hm; reflexivity].
Defined.

(** ** Counts *)

(** C10 (as stated, refuted).  A payload with an empty [DEXTrades] list:
    [get_token_migration_status] returns a record without an [error]
    field, with [dex_pairs] empty, and with no [total_dex_pairs] field
    at all. *)
Lemma bonding_curve_only_record_has_no_count :
  let payload :=
    VDict [("data", VDict [("EVM", VDict [("DEXTrades", VList [])])])] in
  exists record,
    fst (get_token_migration_status sample_repr "secret"
           (answering "{}" (Ret payload)) "0xabc" false idle) = Ret record
    /\ has_field "error" record = false
    /\ field "dex_pairs" record = Some (VList [])
    /\ field "total_dex_pairs" record = None.
Proof.
  intro payload. eexists. repeat split.
Qed.

(** C10 (amended).  In every record without an [error] field,
    [get_trending_tokens] gives [total_found] the length of
    [trending_tokens] and [get_latest_trades] gives [total_trades] the
    length of [trades]; [get_token_migration_status] gives
    [total_dex_pairs] the length of [dex_pairs] in its
    ["migrated_to_dex"] record, while its ["bonding_curve_only"] record
    has an empty [dex_pairs] and no [total_dex_pairs]. *)
Theorem counts_match_lists (py_repr : value -> string) (key : string)
    (net : transport) (token_address : string) (limit : Z) (ctx : bool)
    (utcnow_minus_24h : string) (w : world) (record : value) :
  has_field "error" record = false ->
  (fst (get_trending_tokens py_repr key net limit ctx utcnow_minus_24h w)
   = Ret record ->
   exists trending_tokens,
     field "trending_tokens" record = Some (VList trending_tokens)
     /\ field "total_found" record
        = Some (VInt (Z.of_nat (length trending_tokens))))
  /\ (fst (get_latest_trades py_repr key net token_address limit ctx w)
      = Ret record ->
      exists trades,
        field "trades" record = Some (VList trades)
        /\ field "total_trades" record
           = Some (VInt (Z.of_nat (length trades))))
  /\ (fst (get_token_migration_status py_repr key net token_address ctx w)
      = Ret record ->
      exists dex_pairs,
        field "dex_pairs" record = Some (VList dex_pairs)
        /\ ((field "status" record = Some (VStr "migrated_to_dex")
             /\ field "total_dex_pairs" record
                = Some (VInt (Z.of_nat (length dex_pairs))))
            \/ (field "status" record = Some (VStr "bonding_curve_only")
                /\ dex_pairs = []
                /\ field "total_dex_pairs" record = None))).
Proof.
  intros Hok. repeat split.
  - rewrite get_trending_tokens_value.
    destruct (query_result _ _ _ _) as [result|]; cbn; [|discriminate].
    unfold trending_normalizer.
    destruct (py_contains "error" result) as [[|]|]; cbn; [| |discriminate].
    + destruct (py_getitem result "error"); cbn; [|discriminate].
      intros [= <-]. discriminate Hok.
    + destruct (trending_body py_repr result limit) as [tokens|]; cbn;
        intros [= <-]; [|discriminate Hok].
      exists tokens. split; reflexivity.
  - rewrite get_latest_trades_value.
    destruct (query_result _ _ _ _) as [result|]; cbn; [|discriminate].
    unfold trades_normalizer.
    destruct (py_contains "error" result) as [[|]|]; cbn; [| |discriminate].
    + destruct (py_getitem result "error"); cbn; [|discriminate].
      intros [= <-]. discriminate Hok.
    + destruct (trades_body py_repr result) as [trades|]; cbn;
        intros [= <-]; [|discriminate Hok].
      exists trades. split; reflexivity.
  - rewrite get_token_migration_status_value.
    destruct (query_result _ _ _ _) as [result|]; cbn; [|discriminate].
    unfold migration_normalizer.
    destruct (py_contains "error" result) as [[|]|]; cbn; [| |discriminate].
    + destruct (py_getitem result "error"); cbn; [|discriminate].
      intros [= <-]. discriminate Hok.
    + unfold migration_body.
      destruct (descend result "DEXTrades") as [trades_data|]; cbn;
        [|intros [= <-]; discriminate Hok].
      destruct (negb (truthy trades_data)); cbn.
      * intros [= <-]. exists []. split; [reflexivity|]. right. repeat split.
      * destruct (py_iter trades_data) as [items|]; cbn;
          [|intros [= <-]; discriminate Hok].
        destruct (migration_loop items [] VNone) as [[dex_pairs ts]|]; cbn;
          intros [= <-]; [|discriminate Hok].
        exists dex_pairs. split; [reflexivity|]. left. split; reflexivity.
Qed.

Lemma counts_match_lists_witness :
  let row :=
    VDict [ ("Trade", VDict [("Currency",
                              VDict [ ("Name", VStr "Doge");
                                      ("Symbol", VStr "DOGE");
                                      ("SmartContract", VStr "0xd0") ])]);
            ("volume_24hr", VStr "12.5");
            ("trades_24hr", VStr "7") ] in
  let payload :=
    VDict [("data", VDict [("EVM", VDict [("DEXTradeByTokens",
                                            VList [row; row])])])] in
  let token rank :=
    VDict [ ("rank", VInt rank); ("token_address", VStr "0xd0");
            ("symbol", VStr "DOGE"); ("name", VStr "Doge");
            ("trade_count", VStr "7"); ("volume_24hr_usd", VStr "12.5") ] in
  let record :=
    VDict [ ("trending_tokens", VList [token 1; token 2]);
            ("total_found", VInt 2) ] in
  exists trending_tokens,
    field "trending_tokens" record = Some (VList trending_tokens)
    /\ field "total_found" record
       = Some (VInt (Z.of_nat (length trending_tokens))).
Proof.
  intros row payload token record.
  refine (proj1 (counts_match_lists sample_repr "secret"
                   (answering "{}" (Ret payload)) "0xabc" 10 true
                   "2026-01-01T00:00:00" idle record _) _); reflexivity.
Defined.

(** ** Trending tokens: truncation and ranks *)

Lemma py_get_sub_dict (k : string) (d : dict) (inner : dict -> bool) :
  sub_dict_ok k d inner = true ->
  exists d', py_get (VDict d) k (VDict []) = Ret (VDict d')
             /\ inner d' = true.
Proof.
  unfold sub_dict_ok, py_get.
  destruct (dict_lookup k d) as [[| | | | | |d']|]; try discriminate; eauto.
Qed.

Lemma py_get_dict_returns (d : dict) (k : string) (default : value) :
  exists v, py_get (VDict d) k default = Ret v.
Proof.
  unfold py_get. destruct (dict_lookup k d); eauto.
Qed.






(** Fifteen rows and [limit = 10]: ten records, ranked 1 to 10, for the
    first ten rows in their order. *)
Example fifteen_rows_limit_ten :
  exists trending_tokens,
    fst (get_trending_tokens sample_repr "secret"
           (answering "{}" (Ret (trending_payload fifteen_rows))) 10 false
           "2026-01-01T00:00:00" idle)
    = Ret (VDict [ ("trending_tokens", VList trending_tokens);
                   ("total_found", VInt 10) ])
    /\ map (field "rank") trending_tokens
       = map (fun r => Some (VInt r)) [1; 2; 3; 4; 5; 6; 7; 8; 9; 10]
    /\ map (field "symbol") trending_tokens
       = map (fun n => Some (VStr ("T" ++ str_int n)))
           [101; 102; 103; 104; 105; 106; 107; 108; 109; 110].
Proof.
  eexists. split; [reflexivity|]. split; reflexivity.
Qed.

(** ** Equality of values *)











(** ** Migration status: the loop over the trades *)

Lemma row_pair_returns (row : value) :
  migration_row_ok row = true ->
  exists t dx p,
    py_get row "Trade" (VDict []) = Ret (VDict t)
    /\ py_get (VDict t) "Dex" (VDict []) = Ret (VDict dx)
    /\ pair_info_of (VDict t) (VDict dx) = Ret p
    /\ row_pair row = Ret p
    /\ is_pair_record p.
Proof.
  destruct row as [| | | | | |d]; try discriminate. cbn [migration_row_ok].
  intros [Htrade _]%andb_true_iff.
  destruct (py_get_sub_dict _ _ _ Htrade) as (t & Ht & Hinner).
  apply andb_true_iff in Hinner as [Hinner Hsell].
  apply andb_true_iff in Hinner as [Hdex Hbuy].
  destruct (py_get_sub_dict _ _ _ Hdex) as (dx & Hdx & _).
  destruct (py_get_sub_dict _ _ _ Hbuy) as (b & Hb & Hbc).
  destruct (py_get_sub_dict _ _ _ Hbc) as (bc & Hbcur & _).
  destruct (py_get_sub_dict _ _ _ Hsell) as (s & Hs & Hsc).
  destruct (py_get_sub_dict _ _ _ Hsc) as (sc & Hscur & _).
  destruct (py_get_dict_returns dx "ProtocolName" (VStr "")) as [x1 H1].
  destruct (py_get_dict_returns dx "SmartContract" (VStr "")) as [x2 H2].
  destruct (py_get_dict_returns bc "Symbol" (VStr "")) as [x3 H3].
  destruct (py_get_dict_returns sc "Symbol" (VStr "")) as [x4 H4].
  assert (Hp : pair_info_of (VDict t) (VDict dx) = Ret (pair_record x1 x2 x3 x4)).
  { unfold pair_info_of. rewrite H1, H2. cbn [bind]. rewrite Hb. cbn [bind].
    rewrite Hbcur. cbn [bind]. rewrite H3. cbn [bind]. rewrite Hs. cbn [bind].
    rewrite Hscur. cbn [bind]. rewrite H4. reflexivity. }
  exists t, dx, (pair_record x1 x2 x3 x4). repeat split; try assumption.
  - unfold row_pair. rewrite Ht. cbn [bind]. rewrite Hdx. exact Hp.
  - now exists x1, x2, x3, x4.
Qed.



(** *** What [keep_new] keeps *)








(** *** Equality on the four fields *)



(** Names every [.get] of a run that returned, and carries key
    uniqueness from the receiver to the value read. *)
Ltac name_gets H :=
  repeat match type of H with
         | context [bind (py_get ?v ?k ?d) _] =>
             let x := fresh "x" in
             let E := fresh "E" in
             destruct (py_get v k d) as [x|] eqn:E; cbn [bind] in H;
             [|discriminate H]
         end.







(** Two trades on the same DEX protocol, contract and symbols, at
    different times: one entry in [dex_pairs], and [is_migrated] is
    [True]; the timestamp is that of the first trade. *)
Example two_identical_trades_one_pair :
  let trades :=
    [ sample_trade "pancake_swap_v2" "0xrouter" "MEME" "WBNB" "2026-01-01";
      sample_trade "pancake_swap_v2" "0xrouter" "MEME" "WBNB" "2026-01-03" ] in
  fst (get_token_migration_status sample_repr "secret"
         (answering "{}" (Ret (migration_payload trades))) "0xabc" false idle)
  = Ret (VDict [ ("token_address", VStr "0xabc");
                 ("is_migrated", VBool true);
                 ("status", VStr "migrated_to_dex");
                 ("migration_timestamp", VStr "2026-01-01");
                 ("dex_pairs",
                  VList [ pair_record (VStr "pancake_swap_v2")
                            (VStr "0xrouter") (VStr "MEME") (VStr "WBNB") ]);
                 ("total_dex_pairs", VInt 1) ]).
Proof.
  reflexivity.
Qed.

(** ** The request on the wire *)

Lemma execute_query_world (key : string) (net : transport) (query : string)
    (variables : value) (w : world) :
  snd (execute_query key net query variables w)
  = mkWorld (sent w ++ outgoing key query variables) (logged w).
Proof.
  assert (Hpayload :
            (if truthy variables
             then dict_set "variables" variables [("query", VStr query)]
             else [("query", VStr query)])
            = ("query", VStr query)
              :: (if truthy variables then [("variables", variables)] else [])).
  { destruct (truthy variables); reflexivity. }
  unfold execute_query, outgoing, the_request, BitqueryClient_headers.
  cbv zeta. destruct (String.eqb key "").
  - cbn. rewrite app_nil_r. now destruct w.
  - rewrite Hpayload. unfold mbind, post, ret, lift. cbn.
    destruct (net _) as [resp|e]; cbn; [|reflexivity].
    destruct (negb (status_code resp =? 200)); cbn; [reflexivity|].
    destruct (negb (strip_nonempty (text resp))); reflexivity.
Qed.

(** With a key configured, a call of the client puts one request on the
    wire, whatever the transport then does: a POST to the Bitquery
    endpoint with a 30 second timeout, the content type, the key both
    as [X-API-KEY] and as bearer token, and a body holding the query and
    - only when they are truthy - the variables.  There is no second
    attempt, and nothing is logged. *)
Theorem execute_query_sends_one_request (key : string) (net : transport)
    (query : string) (variables : value) (w : world) :
  key <> "" ->
  snd (execute_query key net query variables w)
  = mkWorld (sent w ++ [the_request key query variables]) (logged w).
Proof.
  intros Hkey. apply String.eqb_neq in Hkey.
  rewrite execute_query_world. unfold outgoing. now rewrite Hkey.
Qed.

Lemma execute_query_sends_one_request_witness :
  snd (execute_query "secret" (failing 503 "busy") trending_query VNone idle)
  = mkWorld
      [ mkRequest "https://streaming.bitquery.io/graphql"
          (VDict [("query", VStr trending_query)])
          [ ("Content-Type", "application/json");
            ("X-API-KEY", "secret");
            ("Authorization", "Bearer secret") ]
          30 ]
      [].
Proof.
  apply (execute_query_sends_one_request "secret" (failing 503 "busy")
           trending_query VNone idle).
  discriminate.
Defined.

(** Follows a tool to the world it leaves behind. *)
Ltac name_client_world :=
  match goal with
  | |- context [execute_query ?k ?n ?q ?v ?w] =>
      let Hw := fresh "Hw" in
      let r := fresh "r" in
      let w2 := fresh "w" in
      pose proof (execute_query_world k n q v w) as Hw;
      destruct (execute_query k n q v w) as [r w2];
      cbn in Hw; subst w2;
      destruct r as [?result|?e]; cbn; [|auto]
  end.

Ltac follow_worlds body :=
  match goal with
  | |- context [py_contains "error" ?result] =>
      destruct (py_contains "error" result) as [[|]|?e]; cbn;
      [ destruct (py_getitem result "error"); cbn; auto
      | destruct body; auto
      | auto ]
  end.

(** The world after a tool: the client's request, if any, and with no
    sink nothing logged. *)
Lemma get_trending_tokens_world (py_repr : value -> string) (key : string)
    (net : transport) (limit : Z) (ctx : bool) (utcnow_minus_24h : string)
    (w : world) :
  let w' := snd (get_trending_tokens py_repr key net limit ctx
                   utcnow_minus_24h w) in
  sent w'
  = (sent w
     ++ outgoing key trending_query
          (trending_variables limit utcnow_minus_24h))%list
  /\ (ctx = false -> logged w' = logged w).
Proof.
  unfold get_trending_tokens, trending_variables.
  unfold mbind, info, ret, lift, bitquery_execute_query.
  destruct ctx; cbn; destruct (negb (String.eqb key "")); cbn;
    name_client_world; (try (split; [reflexivity|discriminate]));
    follow_worlds (trending_body py_repr result limit);
    split; (reflexivity || discriminate).
Qed.

Lemma get_bonding_curve_progress_world (py_repr : value -> string)
    (key : string) (net : transport) (token_address : string) (ctx : bool)
    (w : world) :
  let w' := snd (get_bonding_curve_progress py_repr key net token_address
                   ctx w) in
  sent w'
  = (sent w
     ++ outgoing key bonding_curve_query
          (address_variables token_address))%list
  /\ (ctx = false -> logged w' = logged w).
Proof.
  unfold get_bonding_curve_progress, address_variables.
  unfold mbind, info, ret, lift, bitquery_execute_query.
  destruct ctx; cbn;
    name_client_world; (try (split; [reflexivity|discriminate]));
    follow_worlds (bonding_body token_address result);
    split; (reflexivity || discriminate).
Qed.

Lemma get_latest_trades_world (py_repr : value -> string) (key : string)
    (net : transport) (token_address : string) (limit : Z) (ctx : bool)
    (w : world) :
  let w' := snd (get_latest_trades py_repr key net token_address limit
                   ctx w) in
  sent w'
  = (sent w
     ++ outgoing key latest_trades_query
          (trades_variables token_address limit))%list
  /\ (ctx = false -> logged w' = logged w).
Proof.
  unfold get_latest_trades, trades_variables.
  unfold mbind, info, ret, lift, bitquery_execute_query.
  destruct ctx; cbn;
    name_client_world; (try (split; [reflexivity|discriminate]));
    follow_worlds (trades_body py_repr result);
    split; (reflexivity || discriminate).
Qed.

Lemma get_token_migration_status_world (py_repr : value -> string)
    (key : string) (net : transport) (token_address : string) (ctx : bool)
    (w : world) :
  let w' := snd (get_token_migration_status py_repr key net token_address
                   ctx w) in
  sent w'
  = (sent w
     ++ outgoing key migration_query
          (address_variables token_address))%list
  /\ (ctx = false -> logged w' = logged w).
Proof.
  unfold get_token_migration_status, address_variables.
  unfold mbind, info, ret, lift, bitquery_execute_query.
  destruct ctx; cbn;
    name_client_world; (try (split; [reflexivity|discriminate]));
    follow_worlds (migration_body token_address result);
    split; (reflexivity || discriminate).
Qed.

(** Each tool call puts exactly one request on the wire when a key is
    configured, whatever the answer and whether or not it parses: the
    request carries the tool's query and its variables - [limit] and
    the clock reading followed by [Z] for [get_trending_tokens],
    [tokenAddress] for [get_bonding_curve_progress] and
    [get_token_migration_status], [tokenAddress] and [limit] for
    [get_latest_trades]. *)
Theorem each_tool_sends_one_request (py_repr : value -> string)
    (key : string) (net : transport) (token_address : string) (limit : Z)
    (ctx : bool) (utcnow_minus_24h : string) (w : world) :
  key <> "" ->
  sent (snd (get_trending_tokens py_repr key net limit ctx
               utcnow_minus_24h w))
  = (sent w
     ++ [the_request key trending_query
           (VDict [ ("limit", VInt limit);
                    ("time_24hr_ago", VStr (utcnow_minus_24h ++ "Z")) ])])%list
  /\ sent (snd (get_bonding_curve_progress py_repr key net token_address
                  ctx w))
     = (sent w
        ++ [the_request key bonding_curve_query
              (VDict [("tokenAddress", VStr token_address)])])%list
  /\ sent (snd (get_latest_trades py_repr key net token_address limit ctx w))
     = (sent w
        ++ [the_request key latest_trades_query
              (VDict [ ("tokenAddress", VStr token_address);
                       ("limit", VInt limit) ])])%list
  /\ sent (snd (get_token_migration_status py_repr key net token_address
                  ctx w))
     = (sent w
        ++ [the_request key migration_query
              (VDict [("tokenAddress", VStr token_address)])])%list.
Proof.
  intros Hkey. apply String.eqb_neq in Hkey.
  pose proof (get_trending_tokens_world py_repr key net limit ctx
                utcnow_minus_24h w) as [Ht _].
  pose proof (get_bonding_curve_progress_world py_repr key net token_address
                ctx w) as [Hb _].
  pose proof (get_latest_trades_world py_repr key net token_address limit
                ctx w) as [Hl _].
  pose proof (get_token_migration_status_world py_repr key net token_address
                ctx w) as [Hm _].
  unfold outgoing in *. rewrite Hkey in *. auto.
Qed.

Lemma each_tool_sends_one_request_witness :
  sent (snd (get_latest_trades sample_repr "secret" (failing 503 "busy")
               "0xabc" 25 true idle))
  = [ mkRequest "https://streaming.bitquery.io/graphql"
        (VDict [ ("query", VStr latest_trades_query);
                 ("variables",
                  VDict [ ("tokenAddress", VStr "0xabc");
                          ("limit", VInt 25) ]) ])
        [ ("Content-Type", "application/json");
          ("X-API-KEY", "secret");
          ("Authorization", "Bearer secret") ]
        30 ].
Proof.
  refine (proj1 (proj2 (proj2
            (each_tool_sends_one_request sample_repr "secret"
               (failing 503 "busy") "0xabc" 25 true "2026-01-01T00:00:00"
               idle _)))).
  discriminate.
Defined.

(** The logging sink is an observer: with or without it a tool returns
    the same value and sends the same requests, and without it nothing
    is logged. *)
Theorem sink_changes_nothing (py_repr : value -> string) (key : string)
    (net : transport) (token_address : string) (limit : Z)
    (utcnow_minus_24h : string) (w : world) :
  let trending ctx :=
    get_trending_tokens py_repr key net limit ctx utcnow_minus_24h w in
  let bonding ctx :=
    get_bonding_curve_progress py_repr key net token_address ctx w in
  let trades ctx :=
    get_latest_trades py_repr key net token_address limit ctx w in
  let migration ctx :=
    get_token_migration_status py_repr key net token_address ctx w in
  (fst (trending true) = fst (trending false)
   /\ sent (snd (trending true)) = sent (snd (trending false))
   /\ logged (snd (trending false)) = logged w)
  /\ (fst (bonding true) = fst (bonding false)
      /\ sent (snd (bonding true)) = sent (snd (bonding false))
      /\ logged (snd (bonding false)) = logged w)
  /\ (fst (trades true) = fst (trades false)
      /\ sent (snd (trades true)) = sent (snd (trades false))
      /\ logged (snd (trades false)) = logged w)
  /\ (fst (migration true) = fst (migration false)
      /\ sent (snd (migration true)) = sent (snd (migration false))
      /\ logged (snd (migration false)) = logged w).
Proof.
  cbv zeta. repeat split.
  - now rewrite !get_trending_tokens_value.
  - now rewrite !(proj1 (get_trending_tokens_world _ _ _ _ _ _ _)).
  - now apply get_trending_tokens_world.
  - now rewrite !get_bonding_curve_progress_value.
  - now rewrite !(proj1 (get_bonding_curve_progress_world _ _ _ _ _ _)).
  - now apply get_bonding_curve_progress_world.
  - now rewrite !get_latest_trades_value.
  - now rewrite !(proj1 (get_latest_trades_world _ _ _ _ _ _ _)).
  - now apply get_latest_trades_world.
  - now rewrite !get_token_migration_status_value.
  - now rewrite !(proj1 (get_token_migration_status_world _ _ _ _ _ _)).
  - now apply get_token_migration_status_world.
Qed.

(** ** Failures of the transport, as the tools report them *)

Lemma normalizers_relay_error (py_repr : value -> string)
    (token_address : string) (limit : Z) (d : dict) (e : value) :
  dict_lookup "error" d = Some e ->
  trending_normalizer py_repr limit (VDict d) = Ret (trending_error e)
  /\ bonding_normalizer token_address (VDict d)
     = Ret (bonding_error token_address e)
  /\ trades_normalizer py_repr token_address (VDict d)
     = Ret (trades_error token_address e)
  /\ migration_normalizer token_address (VDict d)
     = Ret (migration_error token_address e).
Proof.
  intros He.
  unfold trending_normalizer, bonding_normalizer, trades_normalizer,
    migration_normalizer, py_contains, py_getitem, dict_has.
  rewrite He. cbn. repeat split.
Qed.

Lemma all_tools_report_envelope (py_repr : value -> string) (key : string)
    (net : transport) (token_address : string) (limit : Z) (ctx : bool)
    (utcnow_minus_24h : string) (w : world) (message : string) :
  (forall query variables,
      query_result key net query variables = Ret (error_envelope message)) ->
  all_tools_report py_repr key net token_address limit ctx utcnow_minus_24h
    w (VStr message).
Proof.
  intros Hq.
  destruct (normalizers_relay_error py_repr token_address limit
              [("error", VStr message)] (VStr message) eq_refl)
    as (Ht & Hb & Hl & Hm).
  unfold all_tools_report.
  rewrite get_trending_tokens_value, get_bonding_curve_progress_value,
    get_latest_trades_value, get_token_migration_status_value.
  rewrite !Hq. cbn [bind]. unfold error_envelope. auto.
Qed.

(** Any status other than 200 makes every tool return its error record
    with the error [HTTP <status>: <body>], the body as received;
    neither the emptiness of the body nor its JSON is looked at. *)
Theorem http_status_reported (py_repr : value -> string) (key : string)
    (net : transport) (token_address : string) (limit : Z) (ctx : bool)
    (utcnow_minus_24h : string) (w : world) (resp : response) :
  key <> "" ->
  (forall rq, net rq = Ret resp) ->
  status_code resp <> 200 ->
  all_tools_report py_repr key net token_address limit ctx utcnow_minus_24h
    w (VStr ("HTTP " ++ str_int (status_code resp) ++ ": " ++ text resp)).
Proof.
  intros Hkey Hnet Hst. apply all_tools_report_envelope.
  intros query variables. unfold query_result, execute_query.
  apply String.eqb_neq in Hkey. rewrite Hkey.
  unfold mbind, post, ret, lift. cbn. rewrite Hnet. cbn.
  apply Z.eqb_neq in Hst. rewrite Hst. reflexivity.
Qed.

Lemma http_status_reported_witness :
  all_tools_report sample_repr "secret"
    (answering_status 500 "boom" (Ret (VDict [("data", VDict [])])))
    "0xabc" 10 true "2026-01-01T00:00:00" idle (VStr "HTTP 500: boom").
Proof.
  apply (http_status_reported sample_repr "secret"
           (answering_status 500 "boom" (Ret (VDict [("data", VDict [])])))
           "0xabc" 10 true "2026-01-01T00:00:00" idle
           (mkResponse 500 "boom" (Ret (VDict [("data", VDict [])]))));
    [discriminate | reflexivity | discriminate].
Defined.

(** Status 200 with a body of white space only (or no body at all)
    makes every tool return its error record with the error
    [Empty response from API]; [response.json()] is not consulted. *)
Theorem blank_body_reported (py_repr : value -> string) (key : string)
    (net : transport) (token_address : string) (limit : Z) (ctx : bool)
    (utcnow_minus_24h : string) (w : world) (resp : response) :
  key <> "" ->
  (forall rq, net rq = Ret resp) ->
  status_code resp = 200 ->
  strip_nonempty (text resp) = false ->
  all_tools_report py_repr key net token_address limit ctx utcnow_minus_24h
    w (VStr "Empty response from API").
Proof.
  intros Hkey Hnet Hst Hblank. apply all_tools_report_envelope.
  intros query variables. unfold query_result, execute_query.
  apply String.eqb_neq in Hkey. rewrite Hkey.
  unfold mbind, post, ret, lift. cbn. rewrite Hnet. cbn.
  rewrite Hst, Hblank. reflexivity.
Qed.

Lemma blank_body_reported_witness :
  all_tools_report sample_repr "secret"
    (answering_status 200 blank_body (Ret (VDict [])))
    "0xabc" 10 true "2026-01-01T00:00:00" idle
    (VStr "Empty response from API").
Proof.
  apply (blank_body_reported sample_repr "secret"
           (answering_status 200 blank_body (Ret (VDict [])))
           "0xabc" 10 true "2026-01-01T00:00:00" idle
           (mkResponse 200 blank_body (Ret (VDict []))));
    [discriminate | reflexivity | reflexivity | reflexivity].
Defined.

(** An exception of the transport (connection failure, DNS, timeout)
    makes every tool return its error record with the error
    [Request failed: <str(e)>]; nothing is raised to the caller. *)
Theorem transport_failure_reported (py_repr : value -> string)
    (key : string) (net : transport) (token_address : string) (limit : Z)
    (ctx : bool) (utcnow_minus_24h : string) (w : world) (e : exn) :
  key <> "" ->
  (forall rq, net rq = Raise e) ->
  all_tools_report py_repr key net token_address limit ctx utcnow_minus_24h
    w (VStr ("Request failed: " ++ exn_msg e)).
Proof.
  intros Hkey Hnet. apply all_tools_report_envelope.
  intros query variables. unfold query_result, execute_query.
  apply String.eqb_neq in Hkey. rewrite Hkey.
  unfold mbind, post, ret, lift. cbn. rewrite Hnet. reflexivity.
Qed.

Lemma transport_failure_reported_witness :
  all_tools_report sample_repr "secret"
    (fun _ => Raise (mkExn TransportError "timed out"))
    "0xabc" 10 true "2026-01-01T00:00:00" idle
    (VStr "Request failed: timed out").
Proof.
  apply (transport_failure_reported sample_repr "secret"
           (fun _ => Raise (mkExn TransportError "timed out"))
           "0xabc" 10 true "2026-01-01T00:00:00" idle
           (mkExn TransportError "timed out"));
    [discriminate | reflexivity].
Defined.

(** ** The error test on the client's answer *)

(** A dictionary with the key [error] is a failure whatever the key
    holds and whatever else the dictionary holds: each tool returns its
    error record with the value under [error] as it is, [None] and
    non-strings included, and does not look at [data]. *)
Theorem error_key_relayed_verbatim (py_repr : value -> string)
    (key : string) (net : transport) (token_address : string) (limit : Z)
    (ctx : bool) (utcnow_minus_24h : string) (w : world)
    (d : dict) (e : value) :
  dict_lookup "error" d = Some e ->
  (trending_answer key net limit utcnow_minus_24h = Ret (VDict d) ->
   fst (get_trending_tokens py_repr key net limit ctx utcnow_minus_24h w)
   = Ret (trending_error e))
  /\ (bonding_answer key net token_address = Ret (VDict d) ->
      fst (get_bonding_curve_progress py_repr key net token_address ctx w)
      = Ret (bonding_error token_address e))
  /\ (trades_answer key net token_address limit = Ret (VDict d) ->
      fst (get_latest_trades py_repr key net token_address limit ctx w)
      = Ret (trades_error token_address e))
  /\ (migration_answer key net token_address = Ret (VDict d) ->
      fst (get_token_migration_status py_repr key net token_address ctx w)
      = Ret (migration_error token_address e)).
Proof.
  intros He.
  destruct (normalizers_relay_error py_repr token_address limit d e He)
    as (Ht & Hb & Hl & Hm).
  unfold trending_answer, bonding_answer, trades_answer, migration_answer.
  rewrite get_trending_tokens_value, get_bonding_curve_progress_value,
    get_latest_trades_value, get_token_migration_status_value.
  repeat split; intros ->; assumption.
Qed.

Lemma error_key_relayed_verbatim_witness :
  let payload :=
    VDict [ ("data", trending_payload fifteen_rows); ("error", VNone) ] in
  fst (get_trending_tokens sample_repr "secret"
         (answering "{}" (Ret payload)) 10 true "2026-01-01T00:00:00" idle)
  = Ret (trending_error VNone).
Proof.
  intro payload.
  refine (proj1 (error_key_relayed_verbatim sample_repr "secret"
                   (answering "{}" (Ret payload)) "0xabc" 10 true
                   "2026-01-01T00:00:00" idle
                   [ ("data", trending_payload fifteen_rows);
                     ("error", VNone) ] VNone _) _); reflexivity.
Defined.

(** Decides the error test of a normalizer on any answer. *)
Ltac decide_error_test result :=
  destruct result as [ | b | z | q | s | l | d ]; cbn [breaks_error_test];
  [ left; eexists; split; [reflexivity|split; reflexivity]
  | left; eexists; split; [reflexivity|split; reflexivity]
  | left; eexists; split; [reflexivity|split; reflexivity]
  | left; eexists; split; [reflexivity|split; reflexivity]
  | cbn [py_contains bind];
    destruct (is_substring "error" s);
    [ left; eexists; split; [reflexivity|split; reflexivity] | right ]
  | cbn [py_contains bind];
    destruct (existsb (fun x => py_eqb x (VStr "error")) l);
    [ left; eexists; split; [reflexivity|split; reflexivity] | right ]
  | right; split_on_error_key d ].

Lemma trending_normalizer_raises (py_repr : value -> string) (limit : Z)
    (result : value) :
  (exists e, trending_normalizer py_repr limit result = Raise e
             /\ exn_cls e = TypeError /\ breaks_error_test result = true)
  \/ (exists record, trending_normalizer py_repr limit result = Ret record
                     /\ breaks_error_test result = false).
Proof.
  unfold trending_normalizer. decide_error_test result;
    try (eexists; split; reflexivity);
    destruct (trending_body py_repr _ limit); cbn;
    eexists; split; reflexivity.
Qed.

Lemma bonding_normalizer_raises (token_address : string) (result : value) :
  (exists e, bonding_normalizer token_address result = Raise e
             /\ exn_cls e = TypeError /\ breaks_error_test result = true)
  \/ (exists record, bonding_normalizer token_address result = Ret record
                     /\ breaks_error_test result = false).
Proof.
  unfold bonding_normalizer. decide_error_test result;
    try (eexists; split; reflexivity);
    destruct (bonding_body token_address _); cbn;
    eexists; split; reflexivity.
Qed.

Lemma trades_normalizer_raises (py_repr : value -> string)
    (token_address : string) (result : value) :
  (exists e, trades_normalizer py_repr token_address result = Raise e
             /\ exn_cls e = TypeError /\ breaks_error_test result = true)
  \/ (exists record,
         trades_normalizer py_repr token_address result = Ret record
         /\ breaks_error_test result = false).
Proof.
  unfold trades_normalizer. decide_error_test result;
    try (eexists; split; reflexivity);
    destruct (trades_body py_repr _); cbn;
    eexists; split; reflexivity.
Qed.

Lemma migration_normalizer_raises (token_address : string) (result : value) :
  (exists e, migration_normalizer token_address result = Raise e
             /\ exn_cls e = TypeError /\ breaks_error_test result = true)
  \/ (exists record, migration_normalizer token_address result = Ret record
                     /\ breaks_error_test result = false).
Proof.
  unfold migration_normalizer. decide_error_test result;
    try (eexists; split; reflexivity);
    destruct (migration_body token_address _); cbn;
    eexists; split; reflexivity.
Qed.

(** A tool raises to its caller exactly when the client's answer breaks
    the error test, which sits outside the [try] block: the answer is
    [None], a boolean or a number, a string with [error] inside, or a
    list with the element ["error"].  What is raised is a [TypeError].
    On every other answer - every dictionary, and every string or list
    without [error] - the tool returns a record. *)
Theorem tools_raise_exactly_on_broken_error_test (py_repr : value -> string)
    (key : string) (net : transport) (token_address : string) (limit : Z)
    (ctx : bool) (utcnow_minus_24h : string) (w : world) (result : value) :
  (trending_answer key net limit utcnow_minus_24h = Ret result ->
   let run := fst (get_trending_tokens py_repr key net limit ctx
                     utcnow_minus_24h w) in
   (exists e, run = Raise e /\ exn_cls e = TypeError
              /\ breaks_error_test result = true)
   \/ (exists record, run = Ret record /\ breaks_error_test result = false))
  /\ (bonding_answer key net token_address = Ret result ->
      let run := fst (get_bonding_curve_progress py_repr key net
                        token_address ctx w) in
      (exists e, run = Raise e /\ exn_cls e = TypeError
                 /\ breaks_error_test result = true)
      \/ (exists record, run = Ret record
                         /\ breaks_error_test result = false))
  /\ (trades_answer key net token_address limit = Ret result ->
      let run := fst (get_latest_trades py_repr key net token_address limit
                        ctx w) in
      (exists e, run = Raise e /\ exn_cls e = TypeError
                 /\ breaks_error_test result = true)
      \/ (exists record, run = Ret record
                         /\ breaks_error_test result = false))
  /\ (migration_answer key net token_address = Ret result ->
      let run := fst (get_token_migration_status py_repr key net
                        token_address ctx w) in
      (exists e, run = Raise e /\ exn_cls e = TypeError
                 /\ breaks_error_test result = true)
      \/ (exists record, run = Ret record
                         /\ breaks_error_test result = false)).
Proof.
  unfold trending_answer, bonding_answer, trades_answer, migration_answer.
  cbv zeta.
  rewrite get_trending_tokens_value, get_bonding_curve_progress_value,
    get_latest_trades_value, get_token_migration_status_value.
  repeat split; intros ->; cbn [bind].
  - apply trending_normalizer_raises.
  - apply bonding_normalizer_raises.
  - apply trades_normalizer_raises.
  - apply migration_normalizer_raises.
Qed.

Lemma tools_raise_exactly_on_broken_error_test_witness :
  let net := answering "'upstream error'" (Ret (VStr "upstream error")) in
  let run := fst (get_latest_trades sample_repr "secret" net "0xabc" 10
                    true idle) in
  (exists e, run = Raise e /\ exn_cls e = TypeError
             /\ breaks_error_test (VStr "upstream error") = true)
  \/ (exists record, run = Ret record
                     /\ breaks_error_test (VStr "upstream error") = false).
Proof.
  intros net run.
  refine (proj1 (proj2 (proj2
            (tools_raise_exactly_on_broken_error_test sample_repr "secret"
               net "0xabc" 10 true "2026-01-01T00:00:00" idle
               (VStr "upstream error")))) _).
  reflexivity.
Defined.

(** ** Missing levels of the payload *)

Lemma descend_missing (field : string) (d : dict) :
  list_missing field d -> descend (VDict d) field = Ret (VList []).
Proof.
  unfold descend, py_get.
  intros [Hdata|(data & Hdata & [Hevm|(evm & Hevm & Hlist)])];
    rewrite Hdata; cbn [bind]; [reflexivity| |];
    rewrite Hevm; cbn [bind]; [reflexivity|].
  now rewrite Hlist.
Qed.

Lemma slice_to_nil {A} (n : Z) : slice_to (@nil A) n = [].
Proof.
  unfold slice_to. destruct (n <? 0); apply firstn_nil.
Qed.

(** A dictionary answer without the key [error] in which [data] is
    missing, or [EVM] under it, or the tool's list under that, is no
    failure: each tool returns its empty result - no tokens and
    [total_found] 0 whatever the [limit], no trades and [total_trades]
    0, status ["early"], status ["bonding_curve_only"] - and none of
    these records has an [error] field. *)
Theorem missing_levels_give_empty_results (py_repr : value -> string)
    (key : string) (net : transport) (token_address : string) (limit : Z)
    (ctx : bool) (utcnow_minus_24h : string) (w : world) (d : dict) :
  dict_has "error" d = false ->
  (trending_answer key net limit utcnow_minus_24h = Ret (VDict d) ->
   list_missing "DEXTradeByTokens" d ->
   fst (get_trending_tokens py_repr key net limit ctx utcnow_minus_24h w)
   = Ret (VDict [ ("trending_tokens", VList []); ("total_found", VInt 0) ]))
  /\ (bonding_answer key net token_address = Ret (VDict d) ->
      list_missing "Transfers" d ->
      fst (get_bonding_curve_progress py_repr key net token_address ctx w)
      = Ret (VDict [ ("token_address", VStr token_address);
                     ("progress_percentage", VInt 0);
                     ("status", VStr "early");
                     ("message",
                      VStr "No transfers to Four.meme contract found") ]))
  /\ (trades_answer key net token_address limit = Ret (VDict d) ->
      list_missing "DEXTrades" d ->
      fst (get_latest_trades py_repr key net token_address limit ctx w)
      = Ret (VDict [ ("token_address", VStr token_address);
                     ("trades", VList []);
                     ("total_trades", VInt 0) ]))
  /\ (migration_answer key net token_address = Ret (VDict d) ->
      list_missing "DEXTrades" d ->
      fst (get_token_migration_status py_repr key net token_address ctx w)
      = Ret (VDict [ ("token_address", VStr token_address);
                     ("is_migrated", VBool false);
                     ("status", VStr "bonding_curve_only");
                     ("dex_pairs", VList []);
                     ("message",
                      VStr "Token still trading only on Four.meme bonding curve") ])).
Proof.
  intros Herr.
  unfold trending_answer, bonding_answer, trades_answer, migration_answer.
  rewrite get_trending_tokens_value, get_bonding_curve_progress_value,
    get_latest_trades_value, get_token_migration_status_value.
  repeat split; intros -> Hmiss; cbn [bind];
    pose proof (descend_missing _ _ Hmiss) as Hdesc.
  - unfold trending_normalizer, trending_body. cbn [py_contains bind].
    rewrite Herr, Hdesc. cbn [bind py_slice_to]. rewrite slice_to_nil.
    reflexivity.
  - unfold bonding_normalizer, bonding_body. cbn [py_contains bind].
    rewrite Herr, Hdesc. reflexivity.
  - unfold trades_normalizer, trades_body. cbn [py_contains bind].
    rewrite Herr, Hdesc. reflexivity.
  - unfold migration_normalizer, migration_body. cbn [py_contains bind].
    rewrite Herr, Hdesc. reflexivity.
Qed.

Lemma missing_levels_give_empty_results_witness :
  let d := [("data", VDict [("EVM", VDict [("Blocks", VList [VInt 1])])])] in
  fst (get_trending_tokens sample_repr "secret"
         (answering "{}" (Ret (VDict d))) (-3) true "2026-01-01T00:00:00"
         idle)
  = Ret (VDict [ ("trending_tokens", VList []); ("total_found", VInt 0) ])
  /\ fst (get_latest_trades sample_repr "secret"
            (answering "{}" (Ret (VDict d))) "0xabc" 10 true idle)
     = Ret (VDict [ ("token_address", VStr "0xabc");
                    ("trades", VList []);
                    ("total_trades", VInt 0) ]).
Proof.
  intro d.
  destruct (missing_levels_give_empty_results sample_repr "secret"
              (answering "{}" (Ret (VDict d))) "0xabc" (-3) true
              "2026-01-01T00:00:00" idle d eq_refl) as (Ht & _ & _ & _).
  destruct (missing_levels_give_empty_results sample_repr "secret"
              (answering "{}" (Ret (VDict d))) "0xabc" 10 true
              "2026-01-01T00:00:00" idle d eq_refl) as (_ & _ & Hl & _).
  split.
  - apply Ht; [reflexivity|].
    right. eexists. split; [reflexivity|]. right. eexists.
    split; reflexivity.
  - apply Hl; [reflexivity|].
    right. eexists. split; [reflexivity|]. right. eexists.
    split; reflexivity.
Defined.

(** A dictionary answer without the key [error] whose [data] is present
    but is no object - [null], as a GraphQL server sends next to its
    [errors], a list, a string, a number - makes each tool return its
    error record; the error names the type that has no [get]. *)
Theorem data_not_an_object_is_a_parse_failure (py_repr : value -> string)
    (key : string) (net : transport) (token_address : string) (limit : Z)
    (ctx : bool) (utcnow_minus_24h : string) (w : world)
    (d : dict) (data : value) :
  dict_has "error" d = false ->
  dict_lookup "data" d = Some data ->
  is_dict data = false ->
  let complaint :=
    "'" ++ type_name data ++ "' object has no attribute 'get'" in
  (trending_answer key net limit utcnow_minus_24h = Ret (VDict d) ->
   fst (get_trending_tokens py_repr key net limit ctx utcnow_minus_24h w)
   = Ret (trending_error
            (VStr ("Failed to parse API response: " ++ complaint))))
  /\ (bonding_answer key net token_address = Ret (VDict d) ->
      fst (get_bonding_curve_progress py_repr key net token_address ctx w)
      = Ret (bonding_error token_address
               (VStr ("Failed to parse response: " ++ complaint))))
  /\ (trades_answer key net token_address limit = Ret (VDict d) ->
      fst (get_latest_trades py_repr key net token_address limit ctx w)
      = Ret (trades_error token_address
               (VStr ("Failed to parse response: " ++ complaint))))
  /\ (migration_answer key net token_address = Ret (VDict d) ->
      fst (get_token_migration_status py_repr key net token_address ctx w)
      = Ret (migration_error token_address
               (VStr ("Failed to parse response: " ++ complaint)))).
Proof.
  intros Herr Hdata Hnot complaint.
  assert (Hdesc : forall field,
             descend (VDict d) field = Raise (mkExn AttributeError complaint)).
  { intros field. unfold descend, py_get. rewrite Hdata. cbn [bind].
    destruct data; try reflexivity. discriminate Hnot. }
  unfold trending_answer, bonding_answer, trades_answer, migration_answer.
  rewrite get_trending_tokens_value, get_bonding_curve_progress_value,
    get_latest_trades_value, get_token_migration_status_value.
  repeat split; intros ->; cbn [bind].
  - unfold trending_normalizer, trending_body. cbn [py_contains bind].
    rewrite Herr, Hdesc. reflexivity.
  - unfold bonding_normalizer, bonding_body. cbn [py_contains bind].
    rewrite Herr, Hdesc. reflexivity.
  - unfold trades_normalizer, trades_body. cbn [py_contains bind].
    rewrite Herr, Hdesc. reflexivity.
  - unfold migration_normalizer, migration_body. cbn [py_contains bind].
    rewrite Herr, Hdesc. reflexivity.
Qed.

Lemma data_not_an_object_is_a_parse_failure_witness :
  let d := [ ("data", VNone);
             ("errors", VList [VDict [("message", VStr "Unauthorized")]]) ] in
  fst (get_token_migration_status sample_repr "secret"
         (answering "{}" (Ret (VDict d))) "0xabc" true idle)
  = Ret (migration_error "0xabc"
           (VStr "Failed to parse response: 'NoneType' object has no attribute 'get'")).
Proof.
  intro d.
  refine (proj2 (proj2 (proj2
            (data_not_an_object_is_a_parse_failure sample_repr "secret"
               (answering "{}" (Ret (VDict d))) "0xabc" 10 true
               "2026-01-01T00:00:00" idle d VNone _ _ _))) _);
    reflexivity.
Defined.

(** ** Latest trades *)





(** The amounts of a trade record are strings, never numbers:
    [buy_amount] is [Trade.Buy.Amount], [sell_amount] is
    [Trade.Sell.Amount] and [price_usd] is [Trade.Buy.AmountInUSD] (not
    [Trade.Buy.Price]).  A string from upstream is carried over
    character for character; an integer is written in decimal, and a
    missing amount reads ["0"]. *)
Theorem trade_amounts_are_carried_as_strings (py_repr : value -> string)
    (row record : value) :
  trade_record py_repr row = Ret record ->
  let carried (name : string) (path : list string) (leaf : string) :=
    exists x,
      get_path row path leaf (VInt 0) = Ret x
      /\ field name record = Some (VStr (py_str py_repr x))
      /\ (forall s, x = VStr s -> field name record = Some (VStr s))
      /\ (forall n, x = VInt n -> field name record = Some (VStr (str_int n)))
  in
  carried "buy_amount" ["Trade"; "Buy"] "Amount"
  /\ carried "sell_amount" ["Trade"; "Sell"] "Amount"
  /\ carried "price_usd" ["Trade"; "Buy"] "AmountInUSD".
Proof.
  unfold trade_record. intros H. name_gets H. injection H as <-.
  cbv zeta. cbn [get_path bind].
  repeat match goal with E : py_get _ _ _ = Ret _ |- _ => rewrite E end.
  cbn [bind].
  repeat match goal with E : py_get _ _ _ = Ret _ |- _ => rewrite E end.
  cbn [bind].
  repeat match goal with E : py_get _ _ _ = Ret _ |- _ => rewrite E end.
  repeat split; eexists; (split; [reflexivity|]);
    (split; [reflexivity|]); split; intros ? ->; reflexivity.
Qed.

Lemma trade_amounts_are_carried_as_strings_witness :
  let row :=
    VDict [("Trade",
            VDict [ ("Buy", VDict [ ("Amount", VStr "0.000000012300");
                                    ("AmountInUSD", VInt 42);
                                    ("Price", VStr "9.99") ]) ])] in
  field "buy_amount"
    (VDict [ ("transaction_hash", VStr ""); ("timestamp", VStr "");
             ("block_number", VInt 0); ("buyer", VStr "");
             ("seller", VStr ""); ("buy_amount", VStr "0.000000012300");
             ("sell_amount", VStr "0"); ("price_usd", VStr "42");
             ("buy_token", VStr ""); ("sell_token", VStr "") ])
  = Some (VStr "0.000000012300").
Proof.
  intro row.
  destruct (trade_amounts_are_carried_as_strings sample_repr row
              (VDict [ ("transaction_hash", VStr ""); ("timestamp", VStr "");
                       ("block_number", VInt 0); ("buyer", VStr "");
                       ("seller", VStr "");
                       ("buy_amount", VStr "0.000000012300");
                       ("sell_amount", VStr "0"); ("price_usd", VStr "42");
                       ("buy_token", VStr ""); ("sell_token", VStr "") ])
              eq_refl) as ((x & Hx & _ & Hs & _) & _ & _).
  apply (Hs "0.000000012300"). cbn in Hx. now injection Hx as <-.
Defined.

(** ** Trending tokens with a negative limit *)



(** ** Bonding curve progress *)

(** When there is a transfer, the progress is the placeholder 75.5 and
    the status ["active"] whatever the payload holds, and the threshold
    is 95.0; [symbol], [name] and [last_activity] are read from the
    first transfer alone ([Transfer.Currency.Symbol],
    [Transfer.Currency.Name], [Block.Time], the empty string when
    missing).  The transfers after the first are not looked at and need
    not even be objects. *)
Theorem bonding_progress_is_a_placeholder (py_repr : value -> string)
    (key : string) (net : transport) (token_address : string) (ctx : bool)
    (w : world) (result first : value) (rest : list value) :
  bonding_answer key net token_address = Ret result ->
  py_contains "error" result = Ret false ->
  descend result "Transfers" = Ret (VList (first :: rest)) ->
  transfer_ok first = true ->
  exists symbol name last_activity,
    get_path first ["Transfer"; "Currency"] "Symbol" (VStr "") = Ret symbol
    /\ get_path first ["Transfer"; "Currency"] "Name" (VStr "") = Ret name
    /\ get_path first ["Block"] "Time" (VStr "") = Ret last_activity
    /\ fst (get_bonding_curve_progress py_repr key net token_address ctx w)
       = Ret (VDict [ ("token_address", VStr token_address);
                      ("symbol", symbol);
                      ("name", name);
                      ("progress_percentage", VFloat (755 # 10));
                      ("status", VStr "active");
                      ("graduation_threshold", VFloat (95 # 1));
                      ("last_activity", last_activity) ]).
Proof.
  intros Hq Herr Hdesc Hfirst.
  destruct first as [| | | | | |d]; try discriminate.
  cbn [transfer_ok] in Hfirst.
  apply andb_true_iff in Hfirst as [Htransfer Hblock].
  destruct (py_get_sub_dict _ _ _ Htransfer) as (t & Ht & Hcur).
  destruct (py_get_sub_dict _ _ _ Hcur) as (c & Hc & _).
  destruct (py_get_sub_dict _ _ _ Hblock) as (b & Hb & _).
  destruct (py_get_dict_returns c "Symbol" (VStr "")) as [symbol Hsym].
  destruct (py_get_dict_returns c "Name" (VStr "")) as [name Hname].
  destruct (py_get_dict_returns b "Time" (VStr "")) as [time Htime].
  exists symbol, name, time. cbn [get_path bind].
  rewrite Ht, Hb. cbn [bind]. rewrite Hc. cbn [bind].
  repeat split; try assumption.
  rewrite get_bonding_curve_progress_value. unfold bonding_answer in Hq.
  rewrite Hq. cbn [bind]. unfold bonding_normalizer, bonding_body.
  rewrite Herr. cbn [bind]. rewrite Hdesc.
  cbn [bind truthy negb py_first].
  rewrite Ht. cbn [bind]. rewrite Hc. cbn [bind].
  rewrite Hsym, Hname. cbn [bind]. rewrite Hb. cbn [bind]. rewrite Htime.
  reflexivity.
Qed.

Lemma bonding_progress_is_a_placeholder_witness :
  let first :=
    VDict [ ("Transfer",
             VDict [ ("Amount", VStr "999999999");
                     ("Currency", VDict [ ("Symbol", VStr "MEME") ]) ]);
            ("Block", VDict [("Time", VStr "2026-01-01T10:00:00Z")]) ] in
  let payload :=
    VDict [("data", VDict [("EVM", VDict [("Transfers",
                                            VList [first; VInt 5])])])] in
  exists symbol name last_activity,
    get_path first ["Transfer"; "Currency"] "Symbol" (VStr "") = Ret symbol
    /\ get_path first ["Transfer"; "Currency"] "Name" (VStr "") = Ret name
    /\ get_path first ["Block"] "Time" (VStr "") = Ret last_activity
    /\ fst (get_bonding_curve_progress sample_repr "secret"
              (answering "{}" (Ret payload)) "0xabc" true idle)
       = Ret (VDict [ ("token_address", VStr "0xabc");
                      ("symbol", symbol);
                      ("name", name);
                      ("progress_percentage", VFloat (755 # 10));
                      ("status", VStr "active");
                      ("graduation_threshold", VFloat (95 # 1));
                      ("last_activity", last_activity) ]).
Proof.
  intros first payload.
  apply (bonding_progress_is_a_placeholder sample_repr "secret"
           (answering "{}" (Ret payload)) "0xabc" true idle payload first
           [VInt 5]); reflexivity.
Defined.

(** ** The status chain *)

Lemma Qltb_lt (x y : Q) : Qltb x y = true <-> (x < y)%Q.
Proof.
  unfold Qltb. rewrite negb_true_iff. split.
  - intros H. apply Qnot_le_lt. intros Hle.
    apply Qle_bool_iff in Hle. congruence.
  - intros H. destruct (Qle_bool y x) eqn:Hle; [|reflexivity].
    apply Qle_bool_iff in Hle. exfalso. exact (Qlt_not_le _ _ H Hle).
Qed.

Lemma Qltb_ge (x y : Q) : Qltb x y = false <-> (y <= x)%Q.
Proof.
  unfold Qltb. rewrite negb_false_iff. apply Qle_bool_iff.
Qed.

(** Decides every comparison of the chain at [p]. *)
Ltac compare_with_breakpoints p :=
  let H50 := fresh "H50" in
  let H90 := fresh "H90" in
  let H95 := fresh "H95" in
  destruct (Qltb p 50) eqn:H50;
  [apply Qltb_lt in H50|apply Qltb_ge in H50];
  (destruct (Qltb p 90) eqn:H90;
   [apply Qltb_lt in H90|apply Qltb_ge in H90]);
  (destruct (Qltb p 95) eqn:H95;
   [apply Qltb_lt in H95|apply Qltb_ge in H95]).

Ltac absurd_order :=
  exfalso;
  match goal with
  | Hlt : (?x < ?a)%Q, Hle : (?b <= ?x)%Q |- _ =>
      apply (Qlt_not_le x a Hlt);
      apply (Qle_trans a b x); [unfold Qle; cbn; lia|exact Hle]
  end.

(** The chain of comparisons orders the statuses: a larger percentage
    never gives an earlier status, and the breakpoints are 50, 90 and
    95 - below 50 ["early"], from 50 ["active"], from 90
    ["approaching_graduation"], from 95 ["graduated"]. *)
Theorem status_chain_is_monotone (p q : Q) :
  (p <= q)%Q ->
  (severity (status_of_progress p) <= severity (status_of_progress q))%nat
  /\ (status_of_progress p = "early" <-> (p < 50)%Q)
  /\ (status_of_progress p = "active" <-> (50 <= p)%Q /\ (p < 90)%Q)
  /\ (status_of_progress p = "approaching_graduation"
      <-> (90 <= p)%Q /\ (p < 95)%Q)
  /\ (status_of_progress p = "graduated" <-> (95 <= p)%Q).
Proof.
  intros Hpq. split.
  - unfold status_of_progress.
    compare_with_breakpoints p; compare_with_breakpoints q; cbn;
      try lia; exfalso;
      match goal with
      | Hq : (q < ?a)%Q, Hp : (?b <= p)%Q |- _ =>
          apply (Qlt_not_le q a Hq);
          apply (Qle_trans a b q); [unfold Qle; cbn; lia|];
          apply (Qle_trans b p q); assumption
      end.
  - unfold status_of_progress.
    compare_with_breakpoints p;
      repeat match goal with |- _ /\ _ => split end;
      (split;
       [ intros ?; try discriminate;
         repeat match goal with |- _ /\ _ => split end;
         first [assumption | absurd_order]
       | intros ?;
         repeat match goal with H : _ /\ _ |- _ => destruct H end;
         first [reflexivity | absurd_order] ]).
Qed.

Lemma status_chain_is_monotone_witness :
  (severity (status_of_progress mock_progress)
   <= severity (status_of_progress (96 # 1)))%nat
  /\ status_of_progress mock_progress = "active".
Proof.
  destruct (status_chain_is_monotone mock_progress (96 # 1))
    as (Hmono & _ & Hactive & _).
  - unfold Qle. cbn. lia.
  - split; [exact Hmono|]. apply Hactive. split; unfold Qle, Qlt; cbn; lia.
Defined.

(** ** The migration timestamp *)

Lemma last_default_irrelevant {A} (a : A) (l : list A) (d d' : A) :
  last (a :: l) d = last (a :: l) d'.
Proof.
  revert a. induction l as [|b l IH]; intros a; [reflexivity|].
  cbn [last]. apply (IH b).
Qed.

Lemma last_cons_default {A} (t : A) (rest : list A) (d : A) :
  last (t :: rest) d = last rest t.
Proof.
  destruct rest as [|b rest]; [reflexivity|].
  cbn [last]. apply last_default_irrelevant.
Qed.

Lemma row_time_returns (row : value) :
  migration_row_ok row = true ->
  exists t, get_path row ["Block"] "Time" (VStr "") = Ret t.
Proof.
  destruct row as [| | | | | |d]; try discriminate. cbn [migration_row_ok].
  intros [_ Hblock]%andb_true_iff.
  destruct (py_get_sub_dict _ _ _ Hblock) as (b & Hb & _).
  cbn [get_path]. rewrite Hb. cbn [bind]. apply py_get_dict_returns.
Qed.

(** The loop settles the timestamp on the first truthy time it meets
    and keeps it from then on. *)
Lemma migration_loop_timestamp (items : list value) :
  forallb migration_row_ok items = true ->
  forall (dex_pairs : list value) (ts : value),
  exists times dex_pairs',
    Forall2 (fun row t => get_path row ["Block"] "Time" (VStr "") = Ret t)
      items times
    /\ migration_loop items dex_pairs ts
       = Ret (dex_pairs',
              if truthy ts then ts
              else match find truthy times with
                   | Some t => t
                   | None => last times ts
                   end).
Proof.
  induction items as [|row rest IH]; intros Hok dex_pairs ts.
  - exists [], dex_pairs. split; [constructor|]. cbn.
    now destruct (truthy ts).
  - cbn in Hok. apply andb_true_iff in Hok as [Hrow Hrest].
    destruct (row_pair_returns row Hrow)
      as (t & dx & p & Ht & Hdx & Hp & _ & _).
    destruct (row_time_returns row Hrow) as [time Htime].
    destruct (IH Hrest (keep_new dex_pairs p)
                (if truthy ts then ts else time))
      as (times & pairs' & Hall & Hrun).
    exists (time :: times), pairs'. split; [now constructor|].
    cbn [migration_loop]. rewrite Ht. cbn [bind]. rewrite Hdx. cbn [bind].
    cbn [get_path] in Htime.
    destruct (truthy ts) eqn:Hts; cbn [negb].
    + cbn [bind]. rewrite Hp. cbn [bind]. fold (keep_new dex_pairs p).
      rewrite Hrun, Hts. reflexivity.
    + rewrite Htime. cbn [bind]. rewrite Hp. cbn [bind].
      fold (keep_new dex_pairs p). rewrite Hrun. cbn [find].
      destruct (truthy time); [reflexivity|].
      now rewrite last_cons_default.
Qed.

(** [migration_timestamp] is the [Block.Time] of the oldest trade that
    has a truthy one - the first trade's, when it has a time.  When no
    trade has one it is whatever [Block.Time] reads on the last trade
    (the empty string when the field is missing). *)
Theorem migration_timestamp_is_first_known_time (py_repr : value -> string)
    (key : string) (net : transport) (token_address : string) (ctx : bool)
    (w : world) (result : value) (rows : list value) :
  migration_answer key net token_address = Ret result ->
  py_contains "error" result = Ret false ->
  descend result "DEXTrades" = Ret (VList rows) ->
  rows <> [] ->
  forallb migration_row_ok rows = true ->
  exists times record,
    Forall2 (fun row t => get_path row ["Block"] "Time" (VStr "") = Ret t)
      rows times
    /\ fst (get_token_migration_status py_repr key net token_address ctx w)
       = Ret record
    /\ field "migration_timestamp" record
       = Some (first_truthy_or_last times).
Proof.
  intros Hq Herr Hdesc Hne Hrows.
  destruct (migration_loop_timestamp rows Hrows [] VNone)
    as (times & pairs & Hall & Hrun).
  cbn [truthy] in Hrun. fold (first_truthy_or_last times) in Hrun.
  exists times. eexists. split; [exact Hall|]. split.
  - rewrite get_token_migration_status_value.
    unfold migration_answer in Hq. rewrite Hq. cbn [bind].
    unfold migration_normalizer, migration_body. rewrite Herr. cbn [bind].
    rewrite Hdesc. cbn [bind]. destruct rows as [|row rows]; [congruence|].
    cbn [truthy negb py_iter bind]. rewrite Hrun. reflexivity.
  - reflexivity.
Qed.

Lemma migration_timestamp_is_first_known_time_witness :
  let rows :=
    [ VDict [("Block", VDict [("Time", VStr "")])];
      sample_trade "pancake_swap_v2" "0xrouter" "MEME" "WBNB" "2026-01-02";
      sample_trade "uniswap_v3" "0xpool" "MEME" "USDT" "2026-01-03" ] in
  exists times record,
    Forall2 (fun row t => get_path row ["Block"] "Time" (VStr "") = Ret t)
      rows times
    /\ fst (get_token_migration_status sample_repr "secret"
              (answering "{}" (Ret (migration_payload rows))) "0xabc" true
              idle) = Ret record
    /\ field "migration_timestamp" record
       = Some (first_truthy_or_last times).
Proof.
  intro rows.
  apply (migration_timestamp_is_first_known_time sample_repr "secret"
           (answering "{}" (Ret (migration_payload rows))) "0xabc" true idle
           (migration_payload rows) rows);
    [reflexivity | reflexivity | reflexivity | discriminate | reflexivity].
Defined.

(** The oldest trade has no time, the next one has: the timestamp is
    the second trade's. *)
Example timestamp_skips_trades_without_time :
  let rows :=
    [ VDict [("Block", VDict [("Time", VStr "")])];
      sample_trade "pancake_swap_v2" "0xrouter" "MEME" "WBNB" "2026-01-02";
      sample_trade "uniswap_v3" "0xpool" "MEME" "USDT" "2026-01-03" ] in
  exists record,
    fst (get_token_migration_status sample_repr "secret"
           (answering "{}" (Ret (migration_payload rows))) "0xabc" false
           idle) = Ret record
    /\ field "migration_timestamp" record = Some (VStr "2026-01-02").
Proof.
  intro rows. eexists. split; reflexivity.
Qed.

(** ** The configuration resources *)

(** [mock_mode] of [config://mcp4meme] tells the truth about the
    client: it is [True] exactly when the client answers every query
    with the missing-key envelope and leaves the network alone, and
    [False] exactly when every call puts a request on the wire. *)
Theorem mock_mode_tells_whether_requests_go_out (key : string) :
  (field "mock_mode" (mcp4meme_config key) = Some (VBool true)
   <-> forall net query variables w,
         execute_query key net query variables w
         = (Ret (error_envelope "BITQUERY_API_KEY not provided"), w))
  /\ (field "mock_mode" (mcp4meme_config key) = Some (VBool false)
      <-> forall net query variables w,
            sent (snd (execute_query key net query variables w))
            = (sent w ++ [the_request key query variables])%list).
Proof.
  cbn [mcp4meme_config field dict_lookup String.eqb Ascii.eqb Bool.eqb].
  rewrite negb_involutive.
  destruct (String.eqb key "") eqn:Hkey.
  - apply String.eqb_eq in Hkey. subst key. split; split.
    + intros _ net query variables w. reflexivity.
    + reflexivity.
    + discriminate.
    + intros H. specialize (H (failing 500 "") "" VNone idle).
      discriminate H.
  - split; split.
    + discriminate.
    + intros H. specialize (H (failing 500 "") "" VNone idle).
      apply (f_equal snd) in H. apply (f_equal sent) in H.
      rewrite execute_query_world in H. unfold outgoing in H.
      rewrite Hkey in H. discriminate H.
    + intros _ net query variables w.
      rewrite execute_query_world. unfold outgoing. now rewrite Hkey.
    + reflexivity.
Qed.

(** The threshold [config://fourmeme-proxy] publishes, 95.0, is the
    one the status chain uses - a percentage gives ["graduated"]
    exactly from it on - and the one [get_bonding_curve_progress]
    reports in every record that carries a [graduation_threshold]. *)
Theorem published_threshold_is_the_graduation_breakpoint
    (py_repr : value -> string) (key : string) (net : transport)
    (token_address : string) (ctx : bool) (w : world) (record : value) :
  field "graduation_threshold" fourmeme_proxy_config
  = Some (VFloat (95 # 1))
  /\ (forall p, status_of_progress p = "graduated" <-> (95 # 1 <= p)%Q)
  /\ (fst (get_bonding_curve_progress py_repr key net token_address ctx w)
       = Ret record ->
      has_field "graduation_threshold" record = true ->
      field "graduation_threshold" record
      = field "graduation_threshold" fourmeme_proxy_config).
Proof.
  split; [reflexivity|]. split.
  - intros p. unfold status_of_progress.
    compare_with_breakpoints p;
      (split;
       [ intros ?; try discriminate; first [assumption | absurd_order]
       | intros ?; first [reflexivity | absurd_order] ]).
  - rewrite get_bonding_curve_progress_value.
    destruct (query_result _ _ _ _) as [result|]; cbn [bind]; [|discriminate].
    unfold bonding_normalizer.
    destruct (py_contains "error" result) as [[|]|]; cbn [bind];
      [| |discriminate].
    + destruct (py_getitem result "error"); cbn [bind]; [|discriminate].
      intros [= <-]. discriminate.
    + unfold bonding_body. step_binds; intros [= <-]; try discriminate.
      reflexivity.
Qed.

Lemma published_threshold_is_the_graduation_breakpoint_witness :
  let first := VDict [("Block", VDict [("Time", VStr "2026-01-01")])] in
  let payload :=
    VDict [("data", VDict [("EVM", VDict [("Transfers", VList [first])])])] in
  let record :=
    VDict [ ("token_address", VStr "0xabc"); ("symbol", VStr "");
            ("name", VStr ""); ("progress_percentage", VFloat (755 # 10));
            ("status", VStr "active");
            ("graduation_threshold", VFloat (95 # 1));
            ("last_activity", VStr "2026-01-01") ] in
  field "graduation_threshold" record
  = field "graduation_threshold" fourmeme_proxy_config.
Proof.
  intros first payload record.
  refine (proj2 (proj2
            (published_threshold_is_the_graduation_breakpoint sample_repr
               "secret" (answering "{}" (Ret payload)) "0xabc" true idle
               record)) _ _); reflexivity.
Defined.

(** ** Where the fields of a record come from *)

(** Replays the named [.get]s along a path. *)
Ltac replay_gets :=
  repeat first
    [ progress cbn [get_path bind]
    | match goal with E : py_get _ _ _ = Ret _ |- _ => rewrite E end ].

(** A trending record reads [token_address], [symbol] and [name] from
    [Trade.Currency] ([SmartContract], [Symbol], [Name], the empty
    string when missing).  [trade_count] is [trades_24hr] as upstream
    gave it (a string stays a string; 0 when missing), and
    [volume_24hr_usd] is [str(volume_24hr)].  [rank] is the position
    plus one, whatever the row holds under [rank]. *)
Theorem trending_record_reads_fields (py_repr : value -> string) (i : Z)
    (row token : value) :
  trending_row py_repr i row = Ret token ->
  exists address symbol name count volume,
    get_path row ["Trade"; "Currency"] "SmartContract" (VStr "") = Ret address
    /\ get_path row ["Trade"; "Currency"] "Symbol" (VStr "") = Ret symbol
    /\ get_path row ["Trade"; "Currency"] "Name" (VStr "") = Ret name
    /\ get_path row [] "trades_24hr" (VInt 0) = Ret count
    /\ get_path row [] "volume_24hr" (VInt 0) = Ret volume
    /\ token = VDict [ ("rank", VInt (i + 1));
                       ("token_address", address);
                       ("symbol", symbol);
                       ("name", name);
                       ("trade_count", count);
                       ("volume_24hr_usd", VStr (py_str py_repr volume)) ].
Proof.
  unfold trending_row. intros H. name_gets H. injection H as <-.
  do 5 eexists. replay_gets. repeat split.
Qed.

Lemma trending_record_reads_fields_witness :
  let row :=
    VDict [ ("rank", VInt 99);
            ("Trade", VDict [("Currency", VDict [("Symbol", VStr "MEME")])]);
            ("trades_24hr", VStr "1200") ] in
  exists address symbol name count volume,
    get_path row ["Trade"; "Currency"] "SmartContract" (VStr "") = Ret address
    /\ get_path row ["Trade"; "Currency"] "Symbol" (VStr "") = Ret symbol
    /\ get_path row ["Trade"; "Currency"] "Name" (VStr "") = Ret name
    /\ get_path row [] "trades_24hr" (VInt 0) = Ret count
    /\ get_path row [] "volume_24hr" (VInt 0) = Ret volume
    /\ VDict [ ("rank", VInt 1); ("token_address", VStr "");
               ("symbol", VStr "MEME"); ("name", VStr "");
               ("trade_count", VStr "1200"); ("volume_24hr_usd", VStr "0") ]
       = VDict [ ("rank", VInt (0 + 1));
                 ("token_address", address);
                 ("symbol", symbol);
                 ("name", name);
                 ("trade_count", count);
                 ("volume_24hr_usd", VStr (py_str sample_repr volume)) ].
Proof.
  intro row.
  apply (trending_record_reads_fields sample_repr 0 row). reflexivity.
Defined.

(** A DEX pair reads [dex_name] and [dex_contract] from [Trade.Dex]
    ([ProtocolName], [SmartContract]), [buy_token] from
    [Trade.Buy.Currency.Symbol] and [sell_token] from
    [Trade.Sell.Currency.Symbol], the empty string when missing; the
    time of the trade is no part of it. *)
Theorem dex_pair_reads_fields (row pair_info : value) :
  row_pair row = Ret pair_info ->
  exists dex_name dex_contract buy_token sell_token,
    get_path row ["Trade"; "Dex"] "ProtocolName" (VStr "") = Ret dex_name
    /\ get_path row ["Trade"; "Dex"] "SmartContract" (VStr "")
       = Ret dex_contract
    /\ get_path row ["Trade"; "Buy"; "Currency"] "Symbol" (VStr "")
       = Ret buy_token
    /\ get_path row ["Trade"; "Sell"; "Currency"] "Symbol" (VStr "")
       = Ret sell_token
    /\ pair_info = pair_record dex_name dex_contract buy_token sell_token.
Proof.
  unfold row_pair, pair_info_of. intros H. name_gets H. injection H as <-.
  do 4 eexists. replay_gets. repeat split.
Qed.

Lemma dex_pair_reads_fields_witness :
  let row :=
    sample_trade "pancake_swap_v2" "0xrouter" "MEME" "WBNB" "2026-01-01" in
  exists dex_name dex_contract buy_token sell_token,
    get_path row ["Trade"; "Dex"] "ProtocolName" (VStr "") = Ret dex_name
    /\ get_path row ["Trade"; "Dex"] "SmartContract" (VStr "")
       = Ret dex_contract
    /\ get_path row ["Trade"; "Buy"; "Currency"] "Symbol" (VStr "")
       = Ret buy_token
    /\ get_path row ["Trade"; "Sell"; "Currency"] "Symbol" (VStr "")
       = Ret sell_token
    /\ pair_record (VStr "pancake_swap_v2") (VStr "0xrouter") (VStr "MEME")
         (VStr "WBNB")
       = pair_record dex_name dex_contract buy_token sell_token.
Proof.
  intro row. apply (dex_pair_reads_fields row). reflexivity.
Defined.

(** ** Record shapes by outcome: the claim *)

Lemma trending_row_carries (py_repr : value -> string) (i : Z)
    (row token : value) :
  trending_row py_repr i row = Ret token ->
  carries_all TokenSummary_fields token = true.
Proof.
  unfold trending_row. intros H. name_gets H. injection H as <-.
  reflexivity.
Qed.

Lemma trending_loop_carries (py_repr : value -> string) (items : list value) :
  forall (i : Z) (acc tokens : list value),
    trending_loop py_repr i items acc = Ret tokens ->
    Forall (fun token => carries_all TokenSummary_fields token = true) acc ->
    Forall (fun token => carries_all TokenSummary_fields token = true) tokens.
Proof.
  induction items as [|row rest IH]; intros i acc tokens; cbn [trending_loop].
  - intros [= <-] Hacc. exact Hacc.
  - destruct (trending_row py_repr i row) as [token|] eqn:Hrow; cbn [bind];
      [|discriminate].
    intros Hrun Hacc. apply (IH _ _ _ Hrun).
    apply Forall_app. split; [exact Hacc|]. constructor; [|constructor].
    exact (trending_row_carries py_repr i row token Hrow).
Qed.

Lemma trending_body_carries (py_repr : value -> string) (result : value)
    (limit : Z) (tokens : list value) :
  trending_body py_repr result limit = Ret tokens ->
  Forall (fun token => carries_all TokenSummary_fields token = true) tokens.
Proof.
  unfold trending_body.
  destruct (descend result "DEXTradeByTokens") as [v|]; cbn [bind];
    [|discriminate].
  destruct (py_slice_to v limit) as [sliced|]; cbn [bind]; [|discriminate].
  destruct (py_iter sliced) as [items|]; cbn [bind]; [|discriminate].
  intros Hrun. apply (trending_loop_carries py_repr items 0 [] tokens Hrun).
  constructor.
Qed.

Lemma trade_record_carries (py_repr : value -> string) (row record : value) :
  trade_record py_repr row = Ret record ->
  carries_all TradeRecord_fields record = true.
Proof.
  unfold trade_record. intros H. name_gets H. injection H as <-.
  reflexivity.
Qed.

Lemma trades_loop_carries (py_repr : value -> string) (items : list value) :
  forall (acc trades : list value),
    trades_loop py_repr items acc = Ret trades ->
    Forall (fun trade => carries_all TradeRecord_fields trade = true) acc ->
    Forall (fun trade => carries_all TradeRecord_fields trade = true) trades.
Proof.
  induction items as [|row rest IH]; intros acc trades; cbn [trades_loop].
  - intros [= <-] Hacc. exact Hacc.
  - destruct (trade_record py_repr row) as [record|] eqn:Hrow; cbn [bind];
      [|discriminate].
    intros Hrun Hacc. apply (IH _ _ Hrun).
    apply Forall_app. split; [exact Hacc|]. constructor; [|constructor].
    exact (trade_record_carries py_repr row record Hrow).
Qed.

Lemma trades_body_carries (py_repr : value -> string) (result : value)
    (trades : list value) :
  trades_body py_repr result = Ret trades ->
  Forall (fun trade => carries_all TradeRecord_fields trade = true) trades.
Proof.
  unfold trades_body.
  destruct (descend result "DEXTrades") as [v|]; cbn [bind]; [|discriminate].
  destruct (py_iter v) as [items|]; cbn [bind]; [|discriminate].
  intros Hrun. apply (trades_loop_carries py_repr items [] trades Hrun).
  constructor.
Qed.

(** What the body of [get_bonding_curve_progress] returns: the early
    record on a falsy list, the full record otherwise. *)
Lemma bonding_body_records (token_address : string) (result record : value) :
  bonding_body token_address result = Ret record ->
  exists v,
    descend result "Transfers" = Ret v
    /\ ((truthy v = false /\ record = early_record token_address)
        \/ (truthy v = true
            /\ field "token_address" record = Some (VStr token_address)
            /\ carries_all BondingCurveStatus_fields record = true
            /\ has_field "error" record = false
            /\ has_field "message" record = false)).
Proof.
  unfold bonding_body. intros H.
  destruct (descend result "Transfers") as [v|]; cbn [bind] in H;
    [|discriminate H].
  exists v. split; [reflexivity|].
  destruct (truthy v); cbn [negb] in H.
  - right. destruct (py_first v) as [first|]; cbn [bind] in H;
      [|discriminate H].
    name_gets H. injection H as <-. repeat split.
  - left. injection H as <-. split; reflexivity.
Qed.

Lemma bonding_body_nothing (token_address : string) (result v : value) :
  descend result "Transfers" = Ret v -> truthy v = false ->
  bonding_body token_address result = Ret (early_record token_address).
Proof.
  intros Hd Hv. unfold bonding_body. rewrite Hd. cbn [bind].
  rewrite Hv. reflexivity.
Qed.

(** What the body of [get_token_migration_status] returns. *)
Lemma migration_body_records (token_address : string)
    (result record : value) :
  migration_body token_address result = Ret record ->
  exists v,
    descend result "DEXTrades" = Ret v
    /\ ((truthy v = false
         /\ record = bonding_curve_only_record token_address)
        \/ (truthy v = true
            /\ field "token_address" record = Some (VStr token_address)
            /\ field "is_migrated" record = Some (VBool true)
            /\ field "status" record = Some (VStr "migrated_to_dex")
            /\ carries_all MigrationStatus_fields record = true
            /\ has_field "error" record = false
            /\ has_field "message" record = false)).
Proof.
  unfold migration_body. intros H.
  destruct (descend result "DEXTrades") as [v|]; cbn [bind] in H;
    [|discriminate H].
  exists v. split; [reflexivity|].
  destruct (truthy v); cbn [negb] in H.
  - right. destruct (py_iter v) as [items|]; cbn [bind] in H;
      [|discriminate H].
    destruct (migration_loop items [] VNone) as [[dex_pairs ts]|];
      cbn [bind] in H; [|discriminate H].
    injection H as <-. repeat split.
  - left. injection H as <-. split; reflexivity.
Qed.

Lemma migration_body_nothing (token_address : string) (result v : value) :
  descend result "DEXTrades" = Ret v -> truthy v = false ->
  migration_body token_address result
  = Ret (bonding_curve_only_record token_address).
Proof.
  intros Hd Hv. unfold migration_body. rewrite Hd. cbn [bind].
  rewrite Hv. reflexivity.
Qed.

Lemma trending_normalizer_shape (py_repr : value -> string) (limit : Z)
    (d : dict) :
  exists record,
    trending_normalizer py_repr limit (VDict d) = Ret record
    /\ trending_shape record
    /\ (has_field "error" record = true
        <-> failed d (trending_body py_repr (VDict d) limit)).
Proof.
  unfold trending_normalizer, trending_shape, failed. split_on_error_key d.
  - eexists. split; [reflexivity|]. split; [left; eexists; reflexivity|].
    split; [intros _; left; reflexivity|reflexivity].
  - destruct (trending_body py_repr (VDict d) limit) as [tokens|e] eqn:Hbody;
      cbn [try_except bind]; eexists; (split; [reflexivity|]); split.
    + right. exists tokens. split; [reflexivity|].
      exact (trending_body_carries _ _ _ _ Hbody).
    + split; [discriminate|]. intros [H|[e He]]; discriminate.
    + left. eexists. reflexivity.
    + split; [intros _; right; eauto|reflexivity].
Qed.

Lemma trades_normalizer_shape (py_repr : value -> string)
    (token_address : string) (d : dict) :
  exists record,
    trades_normalizer py_repr token_address (VDict d) = Ret record
    /\ trades_shape token_address record
    /\ (has_field "error" record = true
        <-> failed d (trades_body py_repr (VDict d))).
Proof.
  unfold trades_normalizer, trades_shape, failed. split_on_error_key d.
  - eexists. split; [reflexivity|]. split; [left; eexists; reflexivity|].
    split; [intros _; left; reflexivity|reflexivity].
  - destruct (trades_body py_repr (VDict d)) as [trades|e] eqn:Hbody;
      cbn [try_except bind]; eexists; (split; [reflexivity|]); split.
    + right. exists trades. split; [reflexivity|].
      exact (trades_body_carries _ _ _ Hbody).
    + split; [discriminate|]. intros [H|[e He]]; discriminate.
    + left. eexists. reflexivity.
    + split; [intros _; right; eauto|reflexivity].
Qed.

Lemma bonding_normalizer_shape (token_address : string) (d : dict) :
  exists record,
    bonding_normalizer token_address (VDict d) = Ret record
    /\ bonding_shape token_address record
    /\ (has_field "error" record = true
        <-> failed d (bonding_body token_address (VDict d)))
    /\ (has_field "message" record = true <-> found_nothing d "Transfers").
Proof.
  unfold bonding_normalizer, bonding_shape, failed, found_nothing.
  split_on_error_key d.
  - eexists. split; [reflexivity|]. split; [left; eexists; reflexivity|].
    split; [split; [intros _; left; reflexivity|reflexivity]|].
    split; [discriminate|]. intros [H _]. discriminate H.
  - destruct (bonding_body token_address (VDict d)) as [record|e] eqn:Hbody;
      cbn [try_except].
    + exists record. split; [reflexivity|].
      destruct (bonding_body_records _ _ _ Hbody)
        as (v & Hd & [[Hv ->]|(Hv & Haddr & Hall & Hnoerr & Hnomsg)]).
      * split; [right; left; reflexivity|]. split.
        -- split; [discriminate|]. intros [H|[e He]]; discriminate.
        -- split; [intros _; split; [reflexivity|eauto]|reflexivity].
      * split; [right; right; auto|]. split.
        -- rewrite Hnoerr. split; [discriminate|].
           intros [H|[e He]]; discriminate.
        -- rewrite Hnomsg. split; [discriminate|].
           intros (_ & v' & Hd' & Hv'). rewrite Hd in Hd'.
           injection Hd' as <-. congruence.
    + eexists. split; [reflexivity|]. split; [left; eexists; reflexivity|].
      split; [split; [intros _; right; eauto|reflexivity]|].
      split; [discriminate|]. intros (_ & v & Hd & Hv).
      rewrite (bonding_body_nothing _ _ _ Hd Hv) in Hbody. discriminate.
Qed.

Lemma migration_normalizer_shape (token_address : string) (d : dict) :
  exists record,
    migration_normalizer token_address (VDict d) = Ret record
    /\ migration_shape token_address record
    /\ (has_field "error" record = true
        <-> failed d (migration_body token_address (VDict d)))
    /\ (has_field "message" record = true <-> found_nothing d "DEXTrades").
Proof.
  unfold migration_normalizer, migration_shape, failed, found_nothing.
  split_on_error_key d.
  - eexists. split; [reflexivity|]. split; [left; eexists; reflexivity|].
    split; [split; [intros _; left; reflexivity|reflexivity]|].
    split; [discriminate|]. intros [H _]. discriminate H.
  - destruct (migration_body token_address (VDict d)) as [record|e]
      eqn:Hbody; cbn [try_except].
    + exists record. split; [reflexivity|].
      destruct (migration_body_records _ _ _ Hbody)
        as (v & Hd
            & [[Hv ->]|(Hv & Haddr & Hmig & Hst & Hall & Hnoerr & Hnomsg)]).
      * split; [right; left; reflexivity|]. split.
        -- split; [discriminate|]. intros [H|[e He]]; discriminate.
        -- split; [intros _; split; [reflexivity|eauto]|reflexivity].
      * split; [right; right; auto 10|]. split.
        -- rewrite Hnoerr. split; [discriminate|].
           intros [H|[e He]]; discriminate.
        -- rewrite Hnomsg. split; [discriminate|].
           intros (_ & v' & Hd' & Hv'). rewrite Hd in Hd'.
           injection Hd' as <-. congruence.
    + eexists. split; [reflexivity|]. split; [left; eexists; reflexivity|].
      split; [split; [intros _; right; eauto|reflexivity]|].
      split; [discriminate|]. intros (_ & v & Hd & Hv).
      rewrite (migration_body_nothing _ _ _ Hd Hv) in Hbody. discriminate.
Qed.

(** C2 (as stated, refuted).  HTTP 500 with body [boom]:
    [get_bonding_curve_progress] returns its error record, which holds
    [token_address], [progress_percentage], [status] and [error] only;
    [symbol], [name], [graduation_threshold] and [last_activity] of the
    [BondingCurveStatus] schema are absent.  Likewise the error record
    of [get_token_migration_status] lacks [status] and
    [total_dex_pairs] of the [MigrationStatus] schema.  And on a
    successful answer with no transfer the record of
    [get_bonding_curve_progress] has no [error] and still lacks
    [symbol]. *)
Lemma bonding_error_record_lacks_schema_fields :
  let bonding :=
    VDict [ ("token_address", VStr "0xabc");
            ("progress_percentage", VInt 0);
            ("status", VStr "unknown");
            ("error", VStr "HTTP 500: boom") ] in
  let migration :=
    VDict [ ("token_address", VStr "0xabc");
            ("is_migrated", VBool false);
            ("dex_pairs", VList []);
            ("error", VStr "HTTP 500: boom") ] in
  let no_transfer :=
    VDict [("data", VDict [("EVM", VDict [("Transfers", VList [])])])] in
  fst (get_bonding_curve_progress sample_repr "secret" (failing 500 "boom")
         "0xabc" false idle) = Ret bonding
  /\ carries_all BondingCurveStatus_fields bonding = false
  /\ has_field "symbol" bonding = false
  /\ fst (get_token_migration_status sample_repr "secret"
            (failing 500 "boom") "0xabc" false idle) = Ret migration
  /\ carries_all MigrationStatus_fields migration = false
  /\ has_field "total_dex_pairs" migration = false
  /\ fst (get_bonding_curve_progress sample_repr "secret"
            (answering "{}" (Ret no_transfer)) "0xabc" false idle)
     = Ret (early_record "0xabc")
  /\ has_field "error" (early_record "0xabc") = false
  /\ carries_all BondingCurveStatus_fields (early_record "0xabc") = false
  /\ has_field "symbol" (early_record "0xabc") = false.
Proof.
  cbv zeta. repeat split.
Qed.

(** C2 (amended).  On every dictionary the client hands back, each tool
    returns a record of one of its fixed shapes, and which one follows
    the outcome.  A success carries every field of the schema: the
    seven of [BondingCurveStatus], the six of [MigrationStatus] with
    [is_migrated] [True], and in the lists of [get_trending_tokens] and
    [get_latest_trades] every element the six of [TokenSummary] or the
    ten of [TradeRecord].  A failure - the answer holds [error], or the
    body of the [try] raised - is the error record: the core fields at
    their defaults (empty list, 0, ["unknown"], [False]) next to
    [error], the other fields absent.  When the upstream list is empty
    the bonding and migration tools return their message records
    (["early"], ["bonding_curve_only"]), which have no [error] and not
    the whole schema either. *)
Theorem tool_records_follow_the_outcome (py_repr : value -> string)
    (key : string) (net : transport) (token_address : string) (limit : Z)
    (ctx : bool) (utcnow_minus_24h : string) (w : world) (d : dict) :
  (trending_answer key net limit utcnow_minus_24h = Ret (VDict d) ->
   exists record,
     fst (get_trending_tokens py_repr key net limit ctx utcnow_minus_24h w)
     = Ret record
     /\ trending_shape record
     /\ (has_field "error" record = true
         <-> failed d (trending_body py_repr (VDict d) limit)))
  /\ (bonding_answer key net token_address = Ret (VDict d) ->
      exists record,
        fst (get_bonding_curve_progress py_repr key net token_address ctx w)
        = Ret record
        /\ bonding_shape token_address record
        /\ (has_field "error" record = true
            <-> failed d (bonding_body token_address (VDict d)))
        /\ (has_field "message" record = true
            <-> found_nothing d "Transfers"))
  /\ (trades_answer key net token_address limit = Ret (VDict d) ->
      exists record,
        fst (get_latest_trades py_repr key net token_address limit ctx w)
        = Ret record
        /\ trades_shape token_address record
        /\ (has_field "error" record = true
            <-> failed d (trades_body py_repr (VDict d))))
  /\ (migration_answer key net token_address = Ret (VDict d) ->
      exists record,
        fst (get_token_migration_status py_repr key net token_address ctx w)
        = Ret record
        /\ migration_shape token_address record
        /\ (has_field "error" record = true
            <-> failed d (migration_body token_address (VDict d)))
        /\ (has_field "message" record = true
            <-> found_nothing d "DEXTrades")).
Proof.
  unfold trending_answer, bonding_answer, trades_answer, migration_answer.
  rewrite get_trending_tokens_value, get_bonding_curve_progress_value,
    get_latest_trades_value, get_token_migration_status_value.
  repeat split; intros ->; cbn [bind].
  - apply trending_normalizer_shape.
  - apply bonding_normalizer_shape.
  - apply trades_normalizer_shape.
  - apply migration_normalizer_shape.
Qed.

Lemma tool_records_follow_the_outcome_witness :
  let first :=
    VDict [ ("Transfer",
             VDict [("Currency", VDict [ ("Symbol", VStr "MEME");
                                         ("Name", VStr "Meme") ])]);
            ("Block", VDict [("Time", VStr "2026-01-01T10:00:00Z")]) ] in
  let d := [("data", VDict [("EVM", VDict [("Transfers", VList [first])])])] in
  (exists record,
      fst (get_bonding_curve_progress sample_repr "secret"
             (answering "{}" (Ret (VDict d))) "0xabc" true idle) = Ret record
      /\ bonding_shape "0xabc" record
      /\ (has_field "error" record = true
          <-> failed d (bonding_body "0xabc" (VDict d)))
      /\ (has_field "message" record = true <-> found_nothing d "Transfers"))
  /\ (exists record,
         fst (get_token_migration_status sample_repr "secret"
                (failing 500 "boom") "0xabc" true idle) = Ret record
         /\ migration_shape "0xabc" record
         /\ (has_field "error" record = true
             <-> failed [("error", VStr "HTTP 500: boom")]
                   (migration_body "0xabc"
                      (VDict [("error", VStr "HTTP 500: boom")])))
         /\ (has_field "message" record = true
             <-> found_nothing [("error", VStr "HTTP 500: boom")]
                   "DEXTrades")).
Proof.
  intros first d. split.
  - apply (proj1 (proj2
             (tool_records_follow_the_outcome sample_repr "secret"
                (answering "{}" (Ret (VDict d))) "0xabc" 10 true
                "2026-01-01T00:00:00" idle d))).
    reflexivity.
  - apply (proj2 (proj2 (proj2
             (tool_records_follow_the_outcome sample_repr "secret"
                (failing 500 "boom") "0xabc" 10 true "2026-01-01T00:00:00"
                idle [("error", VStr "HTTP 500: boom")])))).
    reflexivity.
Defined.

(** The same input evaluated: with a transfer the record carries the
    seven fields of [BondingCurveStatus]. *)
Example bonding_success_carries_the_schema :
  let first :=
    VDict [ ("Transfer",
             VDict [("Currency", VDict [ ("Symbol", VStr "MEME");
                                         ("Name", VStr "Meme") ])]);
            ("Block", VDict [("Time", VStr "2026-01-01T10:00:00Z")]) ] in
  let d := [("data", VDict [("EVM", VDict [("Transfers", VList [first])])])] in
  exists record,
    fst (get_bonding_curve_progress sample_repr "secret"
           (answering "{}" (Ret (VDict d))) "0xabc" false idle) = Ret record
    /\ carries_all BondingCurveStatus_fields record = true
    /\ has_field "error" record = false.
Proof.
  intros first d. eexists. repeat split.
Qed.
